(** * Bill import converter: [scripts/csv_to_json.py]

    A shallow embedding of [convert_csv_to_json] and of the library calls it
    relies on ([str.strip], [str.lower], [str.split], [str.replace],
    [csv.DictReader], [datetime.strptime], [datetime.strftime], [float],
    [sorted]), followed by the properties of the converter.

    Conventions of the model.
    - A Python [str] is a [string]; a character is its code point, restricted
      to the range 0..255 that [ascii] offers.
    - The input file is given as the records that [csv.reader] yields for it:
      the tokenizer (quoting, line ends, the byte-order mark) is not modelled.
    - A Python [float] is a [spec_float] at binary64.
    - [print] is modelled by a list of structured console events, and
      never fails.
    - Errors that the reader raises while it yields a record, and
      decoding errors in the middle of the file, arise outside the
      per-row [try]; the model has a file that is read as a whole or not
      at all. *)

From Stdlib Require Import ZArith NArith String Ascii List Lia Bool.
From Stdlib Require Import Floats.SpecFloat.
From stdpp Require Import base option list gmap strings sorting.

Local Open Scope string_scope.

(** ** Python [str] operations *)

Module PyStr.

Definition code (c : ascii) : N := N_of_ascii c.

(** [Py_UNICODE_ISSPACE] on code points below 256: the characters that
    [str.strip()] removes. *)
Definition isspace (c : ascii) : bool :=
  let n := code c in
  ((9 <=? n) && (n <=? 13) || (28 <=? n) && (n <=? 32)
   || (n =? 133) || (n =? 160))%N.

(** [str.lower()] on code points below 256: A-Z, and the upper-case letters
    of Latin-1 (U+00C0..U+00DE without the multiplication sign U+00D7). *)
Definition lower_char (c : ascii) : ascii :=
  let n := code c in
  if ((65 <=? n) && (n <=? 90)
      || (192 <=? n) && (n <=? 222) && negb (n =? 215))%N
  then ascii_of_N (n + 32) else c.

Fixpoint lower (s : string) : string :=
  match s with
  | EmptyString => EmptyString
  | String c s' => String (lower_char c) (lower s')
  end.

Fixpoint lstrip (s : string) : string :=
  match s with
  | EmptyString => EmptyString
  | String c s' => if isspace c then lstrip s' else s
  end.

Fixpoint rstrip (s : string) : string :=
  match s with
  | EmptyString => EmptyString
  | String c s' =>
      match rstrip s' with
      | EmptyString => if isspace c then EmptyString else String c EmptyString
      | r => String c r
      end
  end.

(** [s.strip()] *)
Definition strip (s : string) : string := rstrip (lstrip s).

(** [c in s] for a one-character [c] *)
Fixpoint contains (c : ascii) (s : string) : bool :=
  match s with
  | EmptyString => false
  | String d s' => Ascii.eqb c d || contains c s'
  end.

(** [s.replace(c, '')] for a one-character [c] *)
Fixpoint remove (c : ascii) (s : string) : string :=
  match s with
  | EmptyString => EmptyString
  | String d s' => if Ascii.eqb c d then remove c s' else String d (remove c s')
  end.

(** [s.split(c)] for a one-character separator: never the empty list. *)
Fixpoint split (c : ascii) (s : string) : list string :=
  match s with
  | EmptyString => [EmptyString]
  | String d s' =>
      if Ascii.eqb c d then EmptyString :: split c s'
      else match split c s' with
           | [] => [String d EmptyString]
           | p :: ps => String d p :: ps
           end
  end.

(** [parts[0]] and [parts[-1]]; [IndexError] on the empty list. *)
Definition first_part (parts : list string) : option string := head parts.
Definition last_part (parts : list string) : option string := last parts.

(** Truthiness of a [str]: [not s] holds for the empty string only. *)
Definition truthy (s : string) : bool :=
  match s with EmptyString => false | _ => true end.

(** Code-point lexicographic order, the order of [<] on [str]. *)
Definition le (s1 s2 : string) : Prop := String.leb s1 s2 = true.
Definition lt (s1 s2 : string) : Prop := String.ltb s1 s2 = true.

#[global] Instance le_dec s1 s2 : Decision (le s1 s2).
Proof. unfold le. apply _. Defined.

End PyStr.

(** ** Exceptions *)

Inductive exn : Type :=
| AttributeError   (* [None.strip()] *)
| KeyError
| IndexError
| TypeError
| ValueError
| OSError.

Inductive result (A : Type) : Type :=
| Ok (a : A)
| Raise (e : exn).
Arguments Ok {A} a.
Arguments Raise {A} e.

Definition rbind {A B} (r : result A) (f : A -> result B) : result B :=
  match r with
  | Ok a => f a
  | Raise e => Raise e
  end.

Declare Scope result_scope.
Delimit Scope result_scope with result.
Notation "x <-- r ;; k" := (rbind r (fun x => k))
  (at level 100, r at next level, right associativity) : result_scope.

(** ** [csv.DictReader] *)

Module Csv.

(** One record as [csv.reader] yields it: the list of its cells. *)
Definition record : Type := list string.

(** [DictReader.fieldnames]: the first record of the file, [None] when the
    file has no record at all. *)
Definition fieldnames (records : list record) : option (list string) :=
  head records.

(** [DictReader.__next__] passes over the records equal to [[]]. *)
Definition data_records (records : list record) : list record :=
  filter (fun r => r <> []) (tail records).

(** A row handed to the loop: a dict from header text to cell, where a
    cell is [Some text], or [None] for the [restval] of a short record.
    (The [restkey] entry of a long record has the key [None], which the
    converter never looks up; it is left out.) *)
Definition dict_row (fns : list string) (r : record) : gmap string (option string) :=
  let d := fold_left (fun d kv => <[kv.1 := Some kv.2]> d) (zip fns r) ∅ in
  fold_left (fun d k => <[k := None]> d) (drop (length r) fns) d.

End Csv.

(** ** [datetime.strptime] and [datetime.strftime] *)

Module Datetime.

Local Open Scope Z_scope.

(** The regular expressions that [_strptime.TimeRE] builds: no repetition
    occurs in them. *)
Inductive regex : Type :=
| Eps
| Chr (c : ascii)                   (* a literal character *)
| Range (lo hi : ascii)             (* [lo-hi] *)
| Digit                             (* \d *)
| Seq (r1 r2 : regex)
| Alt (r1 r2 : regex)               (* r1|r2, r1 tried first *)
| Group (name : ascii) (r : regex). (* (?P<name>r) *)

Definition captures : Type := list (ascii * string).

Definition is_digit (c : ascii) : bool :=
  let n := PyStr.code c in ((48 <=? n) && (n <=? 57))%N.

Definition in_range (lo hi c : ascii) : bool :=
  ((PyStr.code lo <=? PyStr.code c) && (PyStr.code c <=? PyStr.code hi))%N.

(** The text between [s] and its suffix [rest]. *)
Definition consumed (s rest : string) : string :=
  String.substring 0 (String.length s - String.length rest) s.

(** Backtracking match of [r] at the start of [s]; [k] is what remains to
    be matched, and the first success in priority order is the result. *)
Fixpoint re_match {A : Type} (r : regex) (s : string) (caps : captures)
    (k : string -> captures -> option A) : option A :=
  match r with
  | Eps => k s caps
  | Chr c =>
      match s with
      | String d s' => if Ascii.eqb c d then k s' caps else None
      | EmptyString => None
      end
  | Range lo hi =>
      match s with
      | String d s' => if in_range lo hi d then k s' caps else None
      | EmptyString => None
      end
  | Digit =>
      match s with
      | String d s' => if is_digit d then k s' caps else None
      | EmptyString => None
      end
  | Seq r1 r2 => re_match r1 s caps (fun s' caps' => re_match r2 s' caps' k)
  | Alt r1 r2 =>
      match re_match r1 s caps k with
      | Some a => Some a
      | None => re_match r2 s caps k
      end
  | Group name r1 =>
      re_match r1 s caps (fun s' caps' => k s' ((name, consumed s s') :: caps'))
  end.

(** [pattern.match(s)]: the unmatched rest of [s] and the groups. *)
Definition regex_match (r : regex) (s : string) : option (string * captures) :=
  re_match r s [] (fun rest caps => Some (rest, caps)).

Fixpoint group (name : ascii) (caps : captures) : option string :=
  match caps with
  | [] => None
  | (n, t) :: caps' => if Ascii.eqb n name then Some t else group name caps'
  end.

(** The entries of [TimeRE] for the directives the converter uses. *)
Definition directive (d : ascii) : option regex :=
  if Ascii.eqb d "Y" then
    Some (Group "Y" (Seq Digit (Seq Digit (Seq Digit Digit))))
  else if Ascii.eqb d "y" then
    Some (Group "y" (Seq Digit Digit))
  else if Ascii.eqb d "m" then
    Some (Group "m" (Alt (Seq (Chr "1") (Range "0" "2"))
                    (Alt (Seq (Chr "0") (Range "1" "9"))
                         (Range "1" "9"))))
  else if Ascii.eqb d "d" then
    Some (Group "d" (Alt (Seq (Chr "3") (Range "0" "1"))
                    (Alt (Seq (Range "1" "2") Digit)
                    (Alt (Seq (Chr "0") (Range "1" "9"))
                    (Alt (Range "1" "9")
                         (Seq (Chr " ") (Range "1" "9")))))))
  else None.

(** [TimeRE.pattern(format)], for formats made of the directives above and
    of literal characters that need no escape; [None] is the [ValueError]
    of a stray or unknown directive. *)
Fixpoint pattern (format : string) : option regex :=
  match format with
  | EmptyString => Some Eps
  | String c rest =>
      if Ascii.eqb c "%" then
        match rest with
        | EmptyString => None
        | String d rest' =>
            match directive d, pattern rest' with
            | Some r, Some p => Some (Seq r p)
            | _, _ => None
            end
        end
      else
        match pattern rest with
        | Some p => Some (Seq (Chr c) p)
        | None => None
        end
  end.

(** [int(text)] for a captured group: decimal digits, after [int]'s
    stripping of surrounding whitespace. *)
Fixpoint int_digits (acc : Z) (s : string) : option Z :=
  match s with
  | EmptyString => Some acc
  | String c s' =>
      if is_digit c
      then int_digits (10 * acc + (Z.of_N (PyStr.code c) - 48)) s'
      else None
  end.

Definition int (text : string) : option Z :=
  match PyStr.strip text with
  | EmptyString => None
  | t => int_digits 0 t
  end.

Record date : Type := mkdate { year : Z; month : Z; day : Z }.

Definition MINYEAR : Z := 1.
Definition MAXYEAR : Z := 9999.

Definition is_leap (y : Z) : bool :=
  (y mod 4 =? 0) && (negb (y mod 100 =? 0) || (y mod 400 =? 0)).

Definition days_in_month (y m : Z) : Z :=
  if m =? 2 then (if is_leap y then 29 else 28)
  else if (m =? 4) || (m =? 6) || (m =? 9) || (m =? 11) then 30
  else 31.

(** The check of the [date] constructor ([_check_date_fields]). *)
Definition check_date_fields (y m d : Z) : bool :=
  (MINYEAR <=? y) && (y <=? MAXYEAR) && (1 <=? m) && (m <=? 12)
  && (1 <=? d) && (d <=? days_in_month y m).

(** The value of a group, or [dflt] when the format has no such group. *)
Definition group_int (name : ascii) (caps : captures) (dflt : Z) : result Z :=
  match group name caps with
  | None => Ok dflt
  | Some t => match int t with Some n => Ok n | None => Raise ValueError end
  end.

(** [datetime.strptime(data_string, format)], date part. *)
Definition strptime (data_string format : string) : result date :=
  match pattern format with
  | None => Raise ValueError
  | Some format_regex =>
      match regex_match format_regex data_string with
      | None => Raise ValueError             (* does not match format *)
      | Some (rest, found) =>
          if negb (String.eqb rest "") then Raise ValueError (* unconverted data remains *)
          else
            (y2 <-- group_int "y" found (-1) ;;
             y4 <-- group_int "Y" found (-1) ;;
             m <-- group_int "m" found 1 ;;
             d <-- group_int "d" found 1 ;;
             let y :=
               if 0 <=? y4 then y4
               else if 0 <=? y2 then (if y2 <=? 68 then y2 + 2000 else y2 + 1900)
               else 1900 in
             if check_date_fields y m d then Ok (mkdate y m d)
             else Raise ValueError)%result
      end
  end.

Definition digit_char (n : Z) : ascii := ascii_of_N (Z.to_N (48 + n mod 10)).

(** Two and four decimal digits, zero-filled. *)
Definition fill2 (n : Z) : string :=
  String (digit_char (n / 10)) (String (digit_char n) EmptyString).
Definition fill4 (n : Z) : string :=
  String (digit_char (n / 1000)) (String (digit_char (n / 100)) (fill2 n)).

Fixpoint drop_zeros (s : string) : string :=
  match s with
  | String c (String _ _ as s') => if Ascii.eqb c "0" then drop_zeros s' else s
  | _ => s
  end.

(** [%Y] of [strftime] is the C library's: it fills the year with zeros
    to four digits on some platforms ([zero_filled_year = true]) and
    prints it without leading zeros on others (glibc). *)
Definition strftime_Y (zero_filled_year : bool) (y : Z) : string :=
  if zero_filled_year then fill4 y else drop_zeros (fill4 y).

(** [dt.strftime('%Y-%m-%d')] *)
Definition strftime_Y_m_d (zero_filled_year : bool) (dt : date) : string :=
  strftime_Y zero_filled_year (year dt) ++ "-" ++ fill2 (month dt) ++ "-" ++ fill2 (day dt).

End Datetime.

(** ** [float(str)] *)

Module PyFloat.

Local Open Scope Z_scope.

(** binary64 *)
Definition prec : Z := 53.
Definition emax : Z := 1024.

(** [Py_ISSPACE]: the C-locale white space. *)
Definition c_isspace (c : ascii) : bool :=
  let n := PyStr.code c in ((9 <=? n) && (n <=? 13) || (n =? 32))%N.

Definition is_ascii_char (c : ascii) : bool := (PyStr.code c <? 128)%N.

Fixpoint is_ascii (s : string) : bool :=
  match s with
  | EmptyString => true
  | String c s' => is_ascii_char c && is_ascii s'
  end.

Fixpoint transform (s : string) : string :=
  match s with
  | EmptyString => EmptyString
  | String c s' =>
      if (PyStr.code c <? 127)%N then String c (transform s')
      else if PyStr.isspace c then String " " (transform s')
      else String "?" EmptyString (* no decimal digit lies in 127..255 *)
  end.

(** [_PyUnicode_TransformDecimalAndSpaceToASCII] *)
Definition transform_decimal_and_space (s : string) : string :=
  if is_ascii s then s else transform s.

(** The underscore pass of [_Py_string_to_number_with_underscores]: an
    underscore is legal between two digits only; legal ones are dropped. *)
Fixpoint drop_underscores (prev : ascii) (s : string) : option string :=
  match s with
  | EmptyString => if Ascii.eqb prev "_" then None else Some EmptyString
  | String c s' =>
      if Ascii.eqb c "_" then
        if Datetime.is_digit prev then drop_underscores c s' else None
      else if Ascii.eqb prev "_" && negb (Datetime.is_digit c) then None
      else match drop_underscores c s' with
           | Some r => Some (String c r)
           | None => None
           end
  end.

Fixpoint lstrip (s : string) : string :=
  match s with
  | EmptyString => EmptyString
  | String c s' => if c_isspace c then lstrip s' else s
  end.

Fixpoint rstrip (s : string) : string :=
  match s with
  | EmptyString => EmptyString
  | String c s' =>
      match rstrip s' with
      | EmptyString => if c_isspace c then EmptyString else String c EmptyString
      | r => String c r
      end
  end.

(** A leading ['+'] or ['-']: whether it was ['-'], and the rest. *)
Definition take_sign (s : string) : bool * string :=
  match s with
  | String c s' =>
      if Ascii.eqb c "-" then (true, s')
      else if Ascii.eqb c "+" then (false, s')
      else (false, s)
  | EmptyString => (false, s)
  end.

(** The longest prefix of decimal digits, and the rest. *)
Fixpoint take_digits (s : string) : string * string :=
  match s with
  | String c s' =>
      if Datetime.is_digit c
      then let '(ds, rest) := take_digits s' in (String c ds, rest)
      else (EmptyString, s)
  | EmptyString => (EmptyString, EmptyString)
  end.

Fixpoint digits_value (acc : Z) (ds : string) : Z :=
  match ds with
  | EmptyString => acc
  | String c ds' => digits_value (10 * acc + (Z.of_N (PyStr.code c) - 48)) ds'
  end.

(** The binary64 nearest to [(-1)^neg * d * 10^e10], ties to even: what a
    correctly rounded [strtod] returns, with overflow to infinity and
    underflow to zero. *)
Definition of_decimal (neg : bool) (d e10 : Z) : spec_float :=
  match d with
  | Zpos m =>
      if 0 <=? e10
      then binary_round prec emax neg (m * Z.to_pos (10 ^ e10)) 0
      else
        let '(q, e, l) :=
          SFdiv_core_binary prec emax (Zpos m) 0 (10 ^ (- e10)) 0 in
        binary_round_aux prec emax neg q e l
  | _ => S754_zero neg
  end.

(** The exponent part: nothing, or [e]/[E], an optional sign and at least
    one digit, up to the end of the text. *)
Definition parse_exponent (s : string) : option Z :=
  match s with
  | EmptyString => Some 0
  | String c s' =>
      if Ascii.eqb c "e" || Ascii.eqb c "E" then
        let '(neg, s1) := take_sign s' in
        let '(ds, rest) := take_digits s1 in
        match ds, rest with
        | String _ _, EmptyString =>
            Some (if neg then - digits_value 0 ds else digits_value 0 ds)
        | _, _ => None
        end
      else None
  end.

(** [_Py_dg_strtod] on the whole text: sign, digits with an optional point,
    optional exponent. [None] when no number is read or text remains. *)
Definition parse_number (s : string) : option spec_float :=
  let '(neg, s1) := take_sign s in
  let '(ip, s2) := take_digits s1 in
  let '(fp, s3) :=
    match s2 with
    | String c s2' => if Ascii.eqb c "." then take_digits s2' else (EmptyString, s2)
    | EmptyString => (EmptyString, s2)
    end in
  match ip ++ fp with
  | EmptyString => None
  | ds =>
      match parse_exponent s3 with
      | Some e => Some (of_decimal neg (digits_value 0 ds)
                                   (e - Z.of_nat (String.length fp)))
      | None => None
      end
  end.

(** [_Py_parse_inf_or_nan] on the whole text, letters in either case. *)
Definition parse_inf_or_nan (s : string) : option spec_float :=
  let '(neg, s1) := take_sign s in
  if is_ascii s1 then
    let t := PyStr.lower s1 in
    if String.eqb t "inf" || String.eqb t "infinity" then Some (S754_infinity neg)
    else if String.eqb t "nan" then Some S754_nan
    else None
  else None.

(** [float(s)] for a [str]; [ValueError] when the text is no number. *)
Definition float (s : string) : result spec_float :=
  match drop_underscores "000" (transform_decimal_and_space s) with
  | None => Raise ValueError
  | Some t =>
      match rstrip (lstrip t) with
      | EmptyString => Raise ValueError
      | u =>
          match parse_number u with
          | Some x => Ok x
          | None =>
              match parse_inf_or_nan u with
              | Some x => Ok x
              | None => Raise ValueError
              end
          end
      end
  end.

End PyFloat.

(** ** The converter *)

(** One element of [bills]: the dict built at lines 72-79. *)
Module Bill.
Record t : Type := mk {
  name : string;
  category : string;
  dueDate : string;
  amountDue : spec_float;
  recurrence : string;
  notes : string
}.
End Bill.

(** The dict that is written to the output file. *)
Module Payload.
Record t : Type := mk {
  exportDate : string;
  version : string;
  bills : list Bill.t;
  customCategories : list string
}.
End Payload.

(** The lines that the converter prints; row numbers are [i+1]. *)
Inductive event : Type :=
| NotFound                                   (* line 13 *)
| SkipRequired (rownum : nat)                (* line 40 *)
| WarnDate (rownum : nat) (due_date : string)  (* line 67 *)
| WarnEmptyDate (rownum : nat)               (* line 69 *)
| RowError (rownum : nat) (e : exn)          (* line 82 *)
| Converted (count : nat)                    (* line 94 *)
| Fatal (e : exn).                           (* line 98 *)

(** What a run depends on besides the input file. *)
Record environment : Type := mkenv {
  (** [datetime.now().isoformat()] at the time of the call *)
  now_isoformat : string;
  (** the order in which [list(categories)] enumerates a set *)
  set_iteration : gset string -> list string;
  (** whether the C library fills [%Y] with zeros *)
  zero_filled_year : bool;
  (** whether the output file can be opened and written *)
  output_writable : bool
}.

(** The input path: absent, present but not readable as text, or the
    records that [csv.reader] yields for it. *)
Inductive input_file : Type :=
| Missing
| Unreadable
| Records (records : list Csv.record).

Module Converter.

(** The accumulators of the loop and the console. *)
Record state : Type := mkstate {
  bills : list Bill.t;
  categories : gset string;
  console : list event
}.

(** How the body of the loop leaves: falls through with a value, executes
    [continue], or raises. *)
Inductive flow (A : Type) : Type :=
| Next (a : A)
| Continue
| Throw (e : exn).
Arguments Next {A} a.
Arguments Continue {A}.
Arguments Throw {A} e.

Definition body (A : Type) : Type := state -> flow A * state.

Definition ret {A} (a : A) : body A := fun st => (Next a, st).

Definition bind {A B} (m : body A) (f : A -> body B) : body B :=
  fun st =>
    match m st with
    | (Next a, st') => f a st'
    | (Continue, st') => (Continue, st')
    | (Throw e, st') => (Throw e, st')
    end.

Definition lift {A} (r : result A) : body A :=
  fun st => match r with Ok a => (Next a, st) | Raise e => (Throw e, st) end.

Definition continue_ {A} : body A := fun st => (Continue, st).

Definition print (e : event) : body unit :=
  fun st => (Next tt, mkstate (bills st) (categories st) (console st ++ [e])).

(** [categories.add(c)] *)
Definition add_category (c : string) : body unit :=
  fun st => (Next tt, mkstate (bills st) ({[ c ]} ∪ categories st) (console st)).

(** [bills.append(bill)] *)
Definition append_bill (b : Bill.t) : body unit :=
  fun st => (Next tt, mkstate (bills st ++ [b]) (categories st) (console st)).

Declare Scope body_scope.
Delimit Scope body_scope with body.
Notation "x <- m ; k" := (bind m (fun x => k))
  (at level 100, m at next level, right associativity) : body_scope.
Notation "m ;; k" := (bind m (fun _ => k))
  (at level 100, right associativity) : body_scope.

(** Line 24: [{h.strip().lower(): h for h in reader.fieldnames}] *)
Definition headers_of (fns : list string) : gmap string string :=
  fold_left (fun d h => <[PyStr.lower (PyStr.strip h) := h]> d) fns ∅.

(** Lines 26-28: [get_val(key, default)] for the current [row]. *)
Definition get_val (headers : gmap string string)
    (row : gmap string (option string)) (key default : string) : result string :=
  match headers !! PyStr.lower key with
  | Some actual_key =>
      if PyStr.truthy actual_key then
        match row !! actual_key with
        | Some (Some cell) => Ok (PyStr.strip cell)
        | Some None => Raise AttributeError
        | None => Raise KeyError
        end
      else Ok default
  | None => Ok default
  end.

(** Lines 51-64: the [strptime] call that the shape of [due_date] selects. *)
Definition parse_due_date (due_date : string) : result Datetime.date :=
  if PyStr.contains "-" due_date then
    match PyStr.first_part (PyStr.split "-" due_date) with
    | None => Raise IndexError
    | Some p =>
        if (String.length p =? 2)%nat
        then Datetime.strptime due_date "%y-%m-%d"
        else Datetime.strptime due_date "%Y-%m-%d"
    end
  else if PyStr.contains "/" due_date then
    match PyStr.last_part (PyStr.split "/" due_date) with
    | None => Raise IndexError
    | Some p =>
        if (String.length p =? 2)%nat
        then Datetime.strptime due_date "%m/%d/%y"
        else Datetime.strptime due_date "%m/%d/%Y"
    end
  else Datetime.strptime due_date "%Y%m%d".

(** Lines 47-70: [formatted_date]. *)
Definition format_date (env : environment) (i : nat) (due_date : string) : body string :=
  (if PyStr.truthy due_date then
     match parse_due_date due_date with
     | Ok dt => ret (Datetime.strftime_Y_m_d (zero_filled_year env) dt)
     | Raise ValueError => print (WarnDate (i + 1) due_date) ;; ret due_date
     | Raise e => lift (Raise e)
     end
   else
     print (WarnEmptyDate (i + 1)) ;; ret "")%body.

(** Lines 32-80: the statements inside [try]. *)
Definition row_body (env : environment) (headers : gmap string string)
    (i : nat) (row : gmap string (option string)) : body unit :=
  (name <- lift (get_val headers row "Name" "") ;
   category <- lift (get_val headers row "Category" "Other") ;
   due_date <- lift (get_val headers row "Due Date" "") ;
   amount <- lift (get_val headers row "Amount" "0") ;
   recurrence <- lift (get_val headers row "Recurrence" "Monthly") ;
   notes <- lift (get_val headers row "Notes" "") ;
   (if negb (PyStr.truthy name) || negb (PyStr.truthy due_date)
    then print (SkipRequired (i + 1)) ;; continue_
    else ret tt) ;;
   (if PyStr.truthy category then add_category category else ret tt) ;;
   formatted_date <- format_date env i due_date ;
   amountDue <- lift (PyFloat.float (PyStr.remove "," (PyStr.remove "$" amount))) ;
   append_bill (Bill.mk name category formatted_date amountDue recurrence notes))%body.

(** Lines 31-82: one iteration, with its [except Exception]. *)
Definition process_row (env : environment) (headers : gmap string string)
    (st : state) (i : nat) (row : gmap string (option string)) : state :=
  match row_body env headers i row st with
  | (Throw e, st') =>
      mkstate (bills st') (categories st') (console st' ++ [RowError (i + 1) e])
  | (_, st') => st'
  end.

(** Lines 30-82: [for i, row in enumerate(reader)], from row number [i]. *)
Fixpoint loop (env : environment) (headers : gmap string string)
    (i : nat) (rows : list (gmap string (option string))) (st : state) : state :=
  match rows with
  | [] => st
  | row :: rows' => loop env headers (S i) rows' (process_row env headers st i row)
  end.

(** [sorted(l)] on a list of [str] *)
Definition sorted (l : list string) : list string := merge_sort PyStr.le l.

(** The outcome of a run: the returned flag, the document in the output
    file when it was written, and the console. *)
Record outcome : Type := mkoutcome {
  returned : bool;
  written : option Payload.t;
  printed : list event
}.

(** Lines 7-99. *)
Definition convert_csv_to_json (env : environment) (csv_file : input_file) : outcome :=
  match csv_file with
  | Missing => mkoutcome false None [NotFound]
  | Unreadable => mkoutcome false None [Fatal OSError]
  | Records records =>
      match Csv.fieldnames records with
      | None => mkoutcome false None [Fatal TypeError]
      | Some fns =>
          let headers := headers_of fns in
          let rows := Csv.dict_row fns <$> Csv.data_records records in
          let st := loop env headers 0 rows (mkstate [] ∅ []) in
          let payload :=
            Payload.mk (now_isoformat env ++ "Z") "1.0" (bills st)
                       (sorted (set_iteration env (categories st))) in
          if output_writable env
          then mkoutcome true (Some payload)
                         (console st ++ [Converted (length (bills st))])
          else mkoutcome false None (console st ++ [Fatal OSError])
      end
  end.

End Converter.

(** ** Vocabulary of the properties

    The definitions below are not part of the program: they name what the
    properties of the converter speak about. *)

Module Spec.

Import Converter.

(** The six logical fields with the defaults of lines 32-37. *)
Definition field_defaults : list (string * string) :=
  [("Name", ""); ("Category", "Other"); ("Due Date", ""); ("Amount", "0");
   ("Recurrence", "Monthly"); ("Notes", "")].

(** The six values that lines 32-37 extract from a row. *)
Record fields : Type := mkfields {
  f_name : string;
  f_category : string;
  f_due_date : string;
  f_amount : string;
  f_recurrence : string;
  f_notes : string
}.

Definition extract (headers : gmap string string)
    (row : gmap string (option string)) : result fields :=
  (name <-- get_val headers row "Name" "" ;;
   category <-- get_val headers row "Category" "Other" ;;
   due_date <-- get_val headers row "Due Date" "" ;;
   amount <-- get_val headers row "Amount" "0" ;;
   recurrence <-- get_val headers row "Recurrence" "Monthly" ;;
   notes <-- get_val headers row "Notes" "" ;;
   Ok (mkfields name category due_date amount recurrence notes))%result.

(** A row passes the requirement check of line 39. *)
Definition passes_check (f : fields) : bool :=
  PyStr.truthy (f_name f) && PyStr.truthy (f_due_date f).

(** The text before the first [c], and the text after the last [c]: the
    first and the last [c]-separated segment. *)
Fixpoint before_first (c : ascii) (s : string) : string :=
  match s with
  | EmptyString => EmptyString
  | String d s' => if Ascii.eqb c d then EmptyString else String d (before_first c s')
  end.

Fixpoint after_last (c : ascii) (s : string) : string :=
  match s with
  | EmptyString => EmptyString
  | String d s' =>
      if PyStr.contains c s' then after_last c s'
      else if Ascii.eqb c d then s' else s
  end.

(** The format that the ordered policy of the date normalizer selects. *)
Definition date_format (raw : string) : string :=
  if PyStr.contains "-" raw then
    if (String.length (before_first "-" raw) =? 2)%nat then "%y-%m-%d" else "%Y-%m-%d"
  else if PyStr.contains "/" raw then
    if (String.length (after_last "/" raw) =? 2)%nat then "%m/%d/%y" else "%m/%d/%Y"
  else "%Y%m%d".

(** The date policy: the parsed date rendered by [%Y-%m-%d] on success, the
    raw text unchanged on failure. *)
Definition date_policy (zero_filled : bool) (raw : string) : string :=
  match Datetime.strptime raw (date_format raw) with
  | Ok dt => Datetime.strftime_Y_m_d zero_filled dt
  | Raise _ => raw
  end.

(** The text handed to [float]: the amount without ['$'] and [',']. *)
Definition amount_text (amount : string) : string :=
  PyStr.remove "," (PyStr.remove "$" amount).

(** The record that a row yields, if it is accepted. *)
Definition row_record (env : environment) (headers : gmap string string)
    (row : gmap string (option string)) : option Bill.t :=
  match extract headers row with
  | Ok f =>
      if passes_check f then
        match PyFloat.float (amount_text (f_amount f)) with
        | Ok x =>
            Some (Bill.mk (f_name f) (f_category f)
                          (date_policy (zero_filled_year env) (f_due_date f))
                          x (f_recurrence f) (f_notes f))
        | Raise _ => None
        end
      else None
  | Raise _ => None
  end.

(** The category that a row contributes, if any. *)
Definition row_category (headers : gmap string string)
    (row : gmap string (option string)) : option string :=
  match extract headers row with
  | Ok f =>
      if passes_check f && PyStr.truthy (f_category f)
      then Some (f_category f) else None
  | Raise _ => None
  end.

(** The exception that ends the processing of a row, if any. *)
Definition row_exception (headers : gmap string string)
    (row : gmap string (option string)) : option exn :=
  match extract headers row with
  | Ok f =>
      if passes_check f then
        match PyFloat.float (amount_text (f_amount f)) with
        | Ok _ => None
        | Raise e => Some e
        end
      else None
  | Raise e => Some e
  end.

(** The lines that the processing of row number [i] prints. *)
Definition row_events (headers : gmap string string) (i : nat)
    (row : gmap string (option string)) : list event :=
  match extract headers row with
  | Ok f =>
      if passes_check f then
        match Datetime.strptime (f_due_date f) (date_format (f_due_date f)) with
        | Ok _ => []
        | Raise _ => [WarnDate (i + 1) (f_due_date f)]
        end ++
        match PyFloat.float (amount_text (f_amount f)) with
        | Ok _ => []
        | Raise e => [RowError (i + 1) e]
        end
      else [SkipRequired (i + 1)]
  | Raise e => [RowError (i + 1) e]
  end.

(** The state after a row: what the row adds to each accumulator. *)
Definition after_row (env : environment) (headers : gmap string string)
    (st : state) (i : nat) (row : gmap string (option string)) : state :=
  mkstate (bills st ++ option_list (row_record env headers row))
          (match row_category headers row with
           | Some c => {[ c ]} ∪ categories st
           | None => categories st
           end)
          (console st ++ row_events headers i row).

(** The shape YYYY-MM-DD: four digits, two digits, two digits. *)
Definition is_iso_date (s : string) : bool :=
  match list_ascii_of_string s with
  | [y1; y2; y3; y4; s1; m1; m2; s2; d1; d2] =>
      Datetime.is_digit y1 && Datetime.is_digit y2 && Datetime.is_digit y3
      && Datetime.is_digit y4 && Ascii.eqb s1 "-"
      && Datetime.is_digit m1 && Datetime.is_digit m2 && Ascii.eqb s2 "-"
      && Datetime.is_digit d1 && Datetime.is_digit d2
  | _ => false
  end.

(** The rows that the loop receives for a file with header [fns]. *)
Definition rows_of (fns : list string) (records : list Csv.record)
    : list (gmap string (option string)) :=
  Csv.dict_row fns <$> filter (fun r => r <> []) records.

(** An iteration order of sets: each element once. *)
Definition enumerates (it : gset string -> list string) : Prop :=
  forall s, it s ≡ₚ elements s.

End Spec.

(** ** Sample inputs *)

Module Samples.

(** A header line with a differently spelled Category header and without
    the Recurrence and Notes columns. *)
Definition header : list string := ["Name"; " category "; "Due Date"; "Amount"].

(** A record whose Category and Amount cells are present but blank. *)
Definition blank_cells : Csv.record := ["Rent"; ""; "2024-01-01"; " "].

(** Two environments: another clock reading and another iteration order
    of sets on the same platform. *)
Definition env : environment :=
  mkenv "2024-05-01T09:30:00" elements true true.
Definition env_later : environment :=
  mkenv "2024-06-01T10:00:00" (fun s => reverse (elements s)) true true.
Definition full_header : list string :=
  ["Name"; "Category"; "Due Date"; "Amount"; "Recurrence"; "Notes"].
Definition rent : Csv.record :=
  ["Rent"; "Housing"; "03/15/24"; "$1,234.56"; "Monthly"; ""].
Definition no_name : Csv.record := [""; "Food"; "2024-01-01"; "5"; ""; ""].
Definition bad_amount : Csv.record :=
  ["Gas"; "Utilities"; "20240315"; "abc"; ""; ""].
Definition odd_date : Csv.record :=
  ["Water"; ""; "not-a-date"; "1e3"; "Yearly"; "meter 7"].
Definition short : Csv.record := ["Net"; "Apps"].
Definition start : Converter.state := Converter.mkstate [] ∅ [].
(** 1234.56 at binary64: 0x1.34a3d70a3d70ap+10 *)
Definition binary64_1234_56 : spec_float :=
  S754_finite false 5429652300748554 (-42).

(** A file with one row of each kind. *)
Definition file : input_file :=
  Records [full_header; no_name; rent; bad_amount; odd_date; short].
Definition rent_bill : Bill.t :=
  Bill.mk "Rent" "Housing" "2024-03-15" binary64_1234_56 "Monthly" "".
Definition water_bill : Bill.t :=
  Bill.mk "Water" "" "not-a-date" (S754_finite false 8796093022208000 (-43))
          "Yearly" "meter 7".
(** Rows whose amounts are no plain decimal numerals. *)
Definition special_amounts : input_file :=
  Records [["Name"; "Due Date"; "Amount"];
           ["A"; "2024-01-01"; "nan"]; ["B"; "2024-01-02"; "inf"];
           ["C"; "2024-01-03"; "1e3"]; ["D"; "2024-01-04"; "+5"]].


(** The first environment on a platform whose C library prints years
    below 1000 without leading zeros, and a record with such a year. *)
Definition env_unfilled : environment :=
  mkenv "2024-05-01T09:30:00" elements false true.
Definition old_loan : Csv.record :=
  ["Loan"; "Debt"; "0999-01-02"; "5"; "Monthly"; ""].

End Samples.

(** ** Columns *)

Module Columns.

(** Line 24: the key under which a header is stored. *)
Definition norm (h : string) : string := PyStr.lower (PyStr.strip h).

(** The position of the last header that is stored under [k]. *)
Fixpoint last_index (k : string) (fns : list string) : option nat :=
  match fns with
  | [] => None
  | h :: fns' =>
      match last_index k fns' with
      | Some j => Some (S j)
      | None => if String.eqb (norm h) k then Some 0%nat else None
      end
  end.

(** The cell of a record in the column of a logical field. *)
Definition cell_at (fns : list string) (r : list string) (key default : string)
    : result string :=
  match last_index (PyStr.lower key) fns with
  | None => Ok default
  | Some j =>
      match r !! j with
      | Some cell => Ok (PyStr.strip cell)
      | None => Raise AttributeError
      end
  end.

(** A header that resolves to none of the six logical fields. *)
Definition unrecognized (h : string) : Prop :=
  Forall (fun kd => norm h <> PyStr.lower kd.1) Spec.field_defaults.

(** A record with the cell [c] put in at position [n]. *)
Definition insert_cell (n : nat) (c : string) (r : list string) : list string :=
  take n r ++ c :: drop n r.

End Columns.

(** ** Console lines *)

Module Console.

(** The lines that report a row left out of [bills]: lines 40 and 82. *)
Definition drops_row (ev : event) : bool :=
  match ev with
  | SkipRequired _ | RowError _ _ => true
  | _ => false
  end.

End Console.

(** ** Trimmed text *)

Module Trim.

(** A text that [strip] leaves as it is. *)
Definition trimmed (s : string) : Prop := PyStr.strip s = s.

(** A text without any white space. *)
Fixpoint no_space (s : string) : bool :=
  match s with
  | EmptyString => true
  | String c s' => negb (PyStr.isspace c) && no_space s'
  end.

End Trim.

(** ** Groups of a regular expression *)

Module Regex.

Import Datetime.

(** The names of the groups that occur in a regular expression. *)
Fixpoint group_names (r : regex) : list ascii :=
  match r with
  | Seq r1 r2 | Alt r1 r2 => group_names r1 ++ group_names r2
  | Group name r1 => name :: group_names r1
  | _ => []
  end.

End Regex.

(** * Properties *)

Local Open Scope list_scope.

(** ** The order on [str] *)

Section StrOrder.

Lemma ascii_compare_trans_le a b c :
  Ascii.compare a b <> Gt -> Ascii.compare b c <> Gt -> Ascii.compare a c <> Gt.
Proof.
  unfold Ascii.compare. rewrite !N.compare_le_iff. lia.
Qed.

Lemma ascii_compare_refl a : Ascii.compare a a = Eq.
Proof. unfold Ascii.compare. apply N.compare_refl. Qed.

Lemma string_compare_refl s : String.compare s s = Eq.
Proof. induction s as [|a s IH]; simpl; [done|]. by rewrite ascii_compare_refl. Qed.

Lemma string_compare_trans_le s1 : forall s2 s3,
  String.compare s1 s2 <> Gt -> String.compare s2 s3 <> Gt ->
  String.compare s1 s3 <> Gt.
Proof.
  induction s1 as [|a s1 IH]; intros [|b s2] [|c s3]; simpl; try done.
  destruct (Ascii.compare a b) eqn:Hab; try done;
    destruct (Ascii.compare b c) eqn:Hbc; try done; intros H1 H2.
  - apply Ascii.compare_eq_iff in Hab, Hbc. subst.
    rewrite ascii_compare_refl. eauto.
  - apply Ascii.compare_eq_iff in Hab. subst. by rewrite Hbc.
  - apply Ascii.compare_eq_iff in Hbc. subst. by rewrite Hab.
  - assert (Ascii.compare a c = Lt) as ->; [|done].
    unfold Ascii.compare in *. rewrite N.compare_lt_iff in *. lia.
Qed.

Lemma leb_neq_Gt s1 s2 : String.leb s1 s2 = true <-> String.compare s1 s2 <> Gt.
Proof. unfold String.leb. destruct (String.compare s1 s2); split; congruence. Qed.

#[global] Instance le_trans : Transitive PyStr.le.
Proof.
  intros s1 s2 s3. unfold PyStr.le. rewrite !leb_neq_Gt.
  apply string_compare_trans_le.
Qed.

#[global] Instance le_total : Total PyStr.le.
Proof. intros s1 s2. apply String.leb_total. Qed.

#[global] Instance le_antisym : AntiSymm (=) PyStr.le.
Proof. intros s1 s2. apply String.leb_antisym. Qed.

#[global] Instance le_refl : Reflexive PyStr.le.
Proof. intros s. unfold PyStr.le. rewrite leb_neq_Gt, string_compare_refl. done. Qed.

Lemma lt_le_neq s1 s2 : PyStr.lt s1 s2 <-> PyStr.le s1 s2 /\ s1 <> s2.
Proof.
  unfold PyStr.lt, PyStr.le, String.ltb, String.leb.
  destruct (String.compare s1 s2) eqn:Hc; split; try (intros [? ?]); try done.
  - apply String.compare_eq_iff in Hc. done.
  - split; [done|]. intros ->. by rewrite string_compare_refl in Hc.
Qed.

End StrOrder.

(** ** One iteration of the loop *)

Section Iteration.

Import Converter Spec.

Variable env : environment.
Variable headers : gmap string string.

Lemma truthy_nonempty s : PyStr.truthy s = true <-> s <> "".
Proof. destruct s; simpl; split; congruence. Qed.

Lemma truthy_false s : PyStr.truthy s = false <-> s = "".
Proof. destruct s; simpl; split; congruence. Qed.

(** [split] against the segments named by the policy. *)
Lemma split_first c s : PyStr.first_part (PyStr.split c s) = Some (before_first c s).
Proof.
  unfold PyStr.first_part.
  induction s as [|d s IH]; simpl; [done|].
  destruct (Ascii.eqb c d); [done|].
  destruct (PyStr.split c s) as [|p ps]; simpl in *; congruence.
Qed.

Lemma split_nonempty c s : PyStr.split c s <> [].
Proof.
  induction s as [|d s IH]; simpl; [done|].
  destruct (Ascii.eqb c d); [done|]. by destruct (PyStr.split c s).
Qed.

Lemma split_no_sep c s : PyStr.contains c s = false -> PyStr.split c s = [s].
Proof.
  induction s as [|d s IH]; simpl; [done|].
  destruct (Ascii.eqb c d); simpl; [done|].
  intros H. by rewrite (IH H).
Qed.

Lemma split_last c s : PyStr.last_part (PyStr.split c s) = Some (after_last c s).
Proof.
  unfold PyStr.last_part.
  induction s as [|d s IH]; simpl; [done|].
  destruct (PyStr.contains c s) eqn:Hc.
  - destruct (Ascii.eqb c d).
    + pose proof (split_nonempty c s).
      destruct (PyStr.split c s) as [|p ps]; [done|]. exact IH.
    + destruct (PyStr.split c s) as [|p ps] eqn:Hs; [by apply split_nonempty in Hs|].
      destruct ps as [|q qs]; [|exact IH].
      exfalso. clear IH. revert p Hs Hc. clear.
      induction s as [|e s IH]; simpl; [done|].
      destruct (Ascii.eqb c e); simpl.
      * intros p Hp. pose proof (split_nonempty c s).
        destruct (PyStr.split c s); [done|]. done.
      * destruct (PyStr.split c s) as [|p' ps'] eqn:Hs; [by apply split_nonempty in Hs|].
        intros p Hp Hc. injection Hp as _ ->. eauto.
  - rewrite (split_no_sep _ _ Hc).
    destruct (Ascii.eqb c d); done.
Qed.

(** The source's choice of [strptime] call is the policy's. *)
Lemma parse_due_date_policy raw :
  parse_due_date raw = Datetime.strptime raw (date_format raw).
Proof.
  unfold parse_due_date, date_format.
  rewrite split_first, split_last.
  destruct (PyStr.contains "-" raw).
  - by destruct (String.length _ =? 2)%nat.
  - destruct (PyStr.contains "/" raw); [|done].
    by destruct (String.length _ =? 2)%nat.
Qed.

(** [strptime] raises nothing but [ValueError]. *)
Lemma strptime_raises data fmt e :
  Datetime.strptime data fmt = Raise e -> e = ValueError.
Proof.
  unfold Datetime.strptime, Datetime.group_int, rbind.
  repeat (case_match; try congruence).
Qed.

Lemma float_raises s e : PyFloat.float s = Raise e -> e = ValueError.
Proof. unfold PyFloat.float. repeat (case_match; try congruence). Qed.

(** [formatted_date] for a non-empty raw date: the policy's value; the
    accumulators are untouched and at most a date warning is printed. *)
Lemma format_date_nonempty i raw st :
  raw <> "" ->
  format_date env i raw st =
    (Next (date_policy (zero_filled_year env) raw),
     mkstate (bills st) (categories st)
       (console st ++
        match Datetime.strptime raw (date_format raw) with
        | Ok _ => []
        | Raise _ => [WarnDate (i + 1) raw]
        end)).
Proof.
  intros Hraw. apply truthy_nonempty in Hraw.
  unfold format_date, date_policy. rewrite Hraw, parse_due_date_policy.
  destruct (Datetime.strptime raw (date_format raw)) as [dt|e] eqn:Hp.
  - rewrite app_nil_r. by destruct st.
  - by apply strptime_raises in Hp as ->.
Qed.

End Iteration.

(** ** Dicts filled from lists, and the field extractor *)

Section Dicts.

Import Converter Spec.

Context {A V : Type} (kf : A -> string) (vf : A -> V).

(** A dict filled from a list, later entries overriding earlier ones. *)
Lemma fold_insert_other l : forall (d : gmap string V) k,
  (forall x, In x l -> kf x <> k) ->
  fold_left (fun d x => <[kf x := vf x]> d) l d !! k = d !! k.
Proof.
  induction l as [|y l IH]; intros d k Hk; simpl; [done|].
  rewrite IH by (intros x Hx; apply Hk; by right).
  apply lookup_insert_ne, Hk. by left.
Qed.

Lemma fold_insert_last l1 x l2 (d : gmap string V) :
  (forall y, In y l2 -> kf y <> kf x) ->
  fold_left (fun d x => <[kf x := vf x]> d) (l1 ++ x :: l2) d !! kf x = Some (vf x).
Proof.
  intros Hk. rewrite fold_left_app. simpl.
  rewrite fold_insert_other by done. apply lookup_insert_eq.
Qed.

End Dicts.

Section GetVal.

Import Converter Spec.

Lemma headers_of_present pre h post :
  (forall h', In h' post ->
     PyStr.lower (PyStr.strip h') <> PyStr.lower (PyStr.strip h)) ->
  headers_of (pre ++ h :: post) !! PyStr.lower (PyStr.strip h) = Some h.
Proof.
  intros Hpost. unfold headers_of.
  apply (fold_insert_last (fun h => PyStr.lower (PyStr.strip h)) (fun h => h)).
  exact Hpost.
Qed.

Lemma headers_of_absent fns k :
  (forall h, In h fns -> PyStr.lower (PyStr.strip h) <> k) ->
  headers_of fns !! k = None.
Proof.
  intros Hk. unfold headers_of.
  rewrite (fold_insert_other (fun h => PyStr.lower (PyStr.strip h)) (fun h => h)) by done.
  apply lookup_empty.
Qed.

(** The cell that a row holds for a header that does not occur again
    later in the header line: the cell at the header's position, [None]
    when the record is too short. *)
Lemma dict_row_lookup pre h post (r : Csv.record) :
  ~ In h post ->
  Csv.dict_row (pre ++ h :: post) r !! h = Some (r !! length pre).
Proof.
  intros Hpost. unfold Csv.dict_row.
  destruct (r !! length pre) as [cell|] eqn:Hcell.
  - pose proof (lookup_lt_Some _ _ _ Hcell) as Hlt.
    rewrite (fold_insert_other (fun k : string => k) (fun _ => None)).
    + rewrite <- (take_drop_middle r (length pre) cell Hcell) at 1.
      rewrite zip_with_app by (rewrite length_take; lia). simpl.
      apply (fold_insert_last (fun kv : string * string => kv.1)
                              (fun kv => Some kv.2) _ (h, cell)).
      intros [k v] Hin. simpl. intros ->. apply Hpost.
      apply list_elem_of_In in Hin. apply elem_of_zip_l in Hin.
      by apply list_elem_of_In.
    + intros k Hin ->. apply Hpost.
      rewrite drop_app_ge in Hin by lia.
      destruct (length r - length pre)%nat as [|n] eqn:Hn; [lia|].
      simpl in Hin. apply list_elem_of_In in Hin.
      apply list_elem_of_In. eapply (subseteq_drop n post). done.
  - apply lookup_ge_None in Hcell.
    rewrite drop_app_le by done.
    apply (fold_insert_last (fun k : string => k) (fun _ => @None string)).
    by intros k Hin ->.
Qed.

Lemma lower_nonempty s : s <> "" -> PyStr.lower s <> "".
Proof. by destruct s. Qed.

Lemma lower_key_nonempty key default :
  In (key, default) field_defaults -> PyStr.lower key <> "".
Proof.
  unfold field_defaults. simpl.
  intros H. repeat destruct H as [H|H]; try done; by inversion H.
Qed.

End GetVal.

Section FieldExtractor.

Import Converter Spec.

(** C1, as amended. For each of the six logical fields: when a header of
    the file resolves to the field (the last such header counts), the
    extractor returns the cell at that header's position, trimmed of
    surrounding white space, whether or not the result is empty (and
    raises [AttributeError] when the record is too short to have that
    cell); when no header resolves to the field, it returns the field's
    default. *)
Theorem C1_get_val_by_header (fns : list string) (r : Csv.record) key default :
  In (key, default) field_defaults ->
  (forall pre h post,
      fns = pre ++ h :: post ->
      PyStr.lower (PyStr.strip h) = PyStr.lower key ->
      (forall h', In h' post -> PyStr.lower (PyStr.strip h') <> PyStr.lower key) ->
      get_val (headers_of fns) (Csv.dict_row fns r) key default =
        match r !! length pre with
        | Some cell => Ok (PyStr.strip cell)
        | None => Raise AttributeError
        end)
  /\ ((forall h, In h fns -> PyStr.lower (PyStr.strip h) <> PyStr.lower key) ->
      get_val (headers_of fns) (Csv.dict_row fns r) key default = Ok default).
Proof.
  intros Hkey. split.
  - intros pre h post -> Hh Hpost. unfold get_val.
    rewrite <- Hh, headers_of_present by (by rewrite Hh).
    assert (Hne : PyStr.truthy h = true).
    { apply truthy_nonempty. intros ->.
      by apply (lower_key_nonempty _ _ Hkey). }
    rewrite Hne, dict_row_lookup.
    + by destruct (r !! length pre).
    + intros Hin. by apply (Hpost h).
  - intros Habs. unfold get_val. by rewrite headers_of_absent.
Qed.

Lemma C1_get_val_by_header_witness :
  get_val (headers_of Samples.header)
          (Csv.dict_row Samples.header Samples.blank_cells) "Category" "Other" = Ok ""
  /\ get_val (headers_of Samples.header)
          (Csv.dict_row Samples.header Samples.blank_cells) "Notes" "" = Ok "".
Proof.
  split.
  - apply (proj1 (C1_get_val_by_header Samples.header Samples.blank_cells
                    "Category" "Other" ltac:(vm_compute; tauto))
             ["Name"] " category " ["Due Date"; "Amount"]).
    + reflexivity.
    + reflexivity.
    + intros h' [<-|[<-|[]]]; vm_compute; discriminate.
  - apply (proj2 (C1_get_val_by_header Samples.header Samples.blank_cells
                    "Notes" "" ltac:(vm_compute; tauto))).
    intros h [<-|[<-|[<-|[<-|[]]]]]; vm_compute; discriminate.
Defined.

(** C1, as stated, fails: a Category cell and an Amount cell that are
    present but blank come back as the empty string, not as ["Other"]
    and ["0"]. *)
Lemma C1_blank_cell_not_defaulted :
  get_val (headers_of Samples.header)
          (Csv.dict_row Samples.header Samples.blank_cells) "Category" "Other"
    <> Ok "Other"
  /\ get_val (headers_of Samples.header)
          (Csv.dict_row Samples.header Samples.blank_cells) "Amount" "0"
    <> Ok "0".
Proof. split; vm_compute; discriminate. Qed.

End FieldExtractor.

(** ** The loop and the run in closed form *)

Section ProcessRow.

Import Converter Spec.

Variable env : environment.
Variable headers : gmap string string.

(** One iteration in closed form. *)
Lemma process_row_after st i row :
  process_row env headers st i row = after_row env headers st i row.
Proof.
  unfold process_row, after_row, row_body, row_record, row_category,
    row_events, extract, passes_check, amount_text.
  unfold bind, lift, rbind.
  destruct (get_val headers row "Name" "") as [name|e];
    [|simpl; by rewrite app_nil_r].
  destruct (get_val headers row "Category" "Other") as [category|e];
    [|simpl; by rewrite app_nil_r].
  destruct (get_val headers row "Due Date" "") as [due_date|e];
    [|simpl; by rewrite app_nil_r].
  destruct (get_val headers row "Amount" "0") as [amount|e];
    [|simpl; by rewrite app_nil_r].
  destruct (get_val headers row "Recurrence" "Monthly") as [recurrence|e];
    [|simpl; by rewrite app_nil_r].
  destruct (get_val headers row "Notes" "") as [notes|e];
    [|simpl; by rewrite app_nil_r].
  cbn [f_name f_category f_due_date f_amount f_recurrence f_notes].
  destruct (PyStr.truthy name) eqn:Hn; cbn [negb orb andb];
    [|simpl; by rewrite app_nil_r].
  destruct (PyStr.truthy due_date) eqn:Hd; cbn [negb orb andb];
    [|simpl; by rewrite app_nil_r].
  apply truthy_nonempty in Hd.
  destruct (PyStr.truthy category) eqn:Hc; cbn [andb];
    unfold add_category, ret; rewrite (format_date_nonempty env i due_date _ Hd);
    cbn [bills categories console];
    destruct (PyFloat.float _) as [x|e]; unfold append_bill;
    cbn [bills categories console option_list]; rewrite ?app_nil_r, <- ?app_assoc;
    reflexivity.
Qed.

Lemma loop_bills rows : forall i st,
  bills (loop env headers i rows st) = bills st ++ omap (row_record env headers) rows.
Proof.
  induction rows as [|row rows IH]; intros i st; simpl.
  - by rewrite app_nil_r.
  - rewrite IH, process_row_after. unfold after_row; simpl.
    destruct (row_record env headers row); simpl; by rewrite <- ?app_assoc, ?app_nil_r.
Qed.

Lemma loop_categories rows : forall i st,
  categories (loop env headers i rows st) =
    categories st ∪ list_to_set (omap (row_category headers) rows).
Proof.
  induction rows as [|row rows IH]; intros i st; simpl.
  - by rewrite union_empty_r_L.
  - rewrite IH, process_row_after. unfold after_row; simpl.
    destruct (row_category headers row); simpl.
    + by rewrite (union_comm_L {[s]} (categories st)), union_assoc_L.
    + done.
Qed.

(** The console only grows, by the lines of the rows in order. *)
Lemma loop_console rows : forall i st,
  console (loop env headers i rows st) =
    console st ++ concat (imap (fun j row => row_events headers (i + j) row) rows).
Proof.
  induction rows as [|row rows IH]; intros i st; simpl.
  - by rewrite app_nil_r.
  - rewrite IH, process_row_after. unfold after_row; simpl.
    rewrite <- app_assoc, Nat.add_0_r. do 3 f_equal.
    apply imap_ext. intros j x _. simpl. f_equal. lia.
Qed.

End ProcessRow.

Section Run.

Import Converter Spec.

(** A run on a readable file with a header, with a writable output. *)
Lemma convert_records env fns recs :
  output_writable env = true ->
  convert_csv_to_json env (Records (fns :: recs)) =
    mkoutcome true
      (Some (Payload.mk (now_isoformat env ++ "Z")%string "1.0"
               (omap (row_record env (headers_of fns)) (rows_of fns recs))
               (sorted (set_iteration env
                  (list_to_set
                     (omap (row_category (headers_of fns)) (rows_of fns recs)))))))
      (concat (imap (fun j row => row_events (headers_of fns) j row)
                    (rows_of fns recs))
       ++ [Converted (length (omap (row_record env (headers_of fns))
                                   (rows_of fns recs)))]).
Proof.
  intros Hw. unfold convert_csv_to_json, rows_of, Csv.data_records. simpl.
  rewrite Hw, loop_bills, loop_categories, loop_console. simpl.
  by rewrite union_empty_l_L.
Qed.

Lemma sorted_enumeration it (s : gset string) :
  enumerates it ->
  sorted (it s) = sorted (elements s).
Proof.
  intros Hit. unfold sorted.
  apply (Sorted_unique PyStr.le).
  - apply Sorted_merge_sort; apply _.
  - apply Sorted_merge_sort; apply _.
  - rewrite !merge_sort_Permutation. apply Hit.
Qed.

Lemma sorted_elem_of it (s : gset string) c :
  enumerates it -> c ∈ sorted (it s) <-> c ∈ s.
Proof.
  intros Hit. unfold sorted.
  rewrite merge_sort_Permutation, (Hit s). apply elem_of_elements.
Qed.

Lemma sorted_strictly it (s : gset string) :
  enumerates it -> StronglySorted PyStr.lt (sorted (it s)).
Proof.
  intros Hit.
  assert (Hnd : NoDup (sorted (it s))).
  { unfold sorted. rewrite merge_sort_Permutation, (Hit s). apply NoDup_elements. }
  assert (Hs : StronglySorted PyStr.le (sorted (it s))).
  { apply StronglySorted_merge_sort; apply _. }
  induction Hs as [|x l Hl IH Hx]; [constructor|].
  apply NoDup_cons in Hnd as [Hx' Hnd].
  constructor; [by apply IH|].
  apply Forall_forall. intros y Hy. apply lt_le_neq. split.
  - rewrite Forall_forall in Hx. by apply Hx.
  - intros ->. done.
Qed.

End Run.

(** ** Dates, amounts and rows *)

Section Dates.

Import Converter Spec Datetime.
Local Open Scope Z_scope.

Lemma digit_char_code n : PyStr.code (digit_char n) = Z.to_N (48 + n mod 10).
Proof.
  unfold PyStr.code, digit_char. apply N_ascii_embedding.
  pose proof (Z.mod_pos_bound n 10). lia.
Qed.

Lemma digit_char_is_digit n : is_digit (digit_char n) = true.
Proof.
  unfold is_digit. rewrite digit_char_code.
  pose proof (Z.mod_pos_bound n 10). 
  apply andb_true_iff. split; apply N.leb_le; lia.
Qed.

Lemma strftime_Y_filled zf y :
  zf = true \/ (1000 <= y <= 9999) -> strftime_Y zf y = fill4 y.
Proof.
  intros H. unfold strftime_Y. destruct zf; [done|].
  destruct H as [|H]; [done|].
  unfold fill4. cbn [drop_zeros].
  assert (Ascii.eqb (digit_char (y / 1000)) "0" = false) as ->; [|done].
  apply Ascii.eqb_neq. intros Heq.
  apply (f_equal PyStr.code) in Heq. rewrite digit_char_code in Heq.
  assert (1 <= y / 1000 <= 9).
  { pose proof (Z.div_le_lower_bound y 1000 1). pose proof (Z.div_lt_upper_bound y 1000 10). lia. }
  rewrite Z.mod_small in Heq by lia.
  change (PyStr.code "0") with 48%N in Heq. lia.
Qed.

(** [%Y-%m-%d] has the shape YYYY-MM-DD whenever the year is printed
    with four digits. *)
Lemma strftime_shape zf dt :
  zf = true \/ (1000 <= year dt <= 9999) ->
  is_iso_date (strftime_Y_m_d zf dt) = true.
Proof.
  intros H. unfold strftime_Y_m_d. rewrite (strftime_Y_filled zf _ H).
  unfold is_iso_date, fill4, fill2. simpl.
  by rewrite !digit_char_is_digit.
Qed.

Lemma strftime_nonempty zf dt : strftime_Y_m_d zf dt <> "".
Proof. unfold strftime_Y_m_d. by destruct (strftime_Y zf (year dt)). Qed.

Lemma strptime_valid data fmt dt :
  strptime data fmt = Ok dt ->
  check_date_fields (year dt) (month dt) (day dt) = true.
Proof.
  unfold strptime, rbind.
  repeat (case_match; try congruence).
  all: intros [= <-]; done.
Qed.

Lemma date_policy_nonempty zf raw : raw <> "" -> date_policy zf raw <> "".
Proof.
  intros Hraw. unfold date_policy.
  destruct (strptime raw (date_format raw)); [apply strftime_nonempty|done].
Qed.

End Dates.


Section Rows.

Import Converter Spec Datetime.

Variable env : environment.
Variable headers : gmap string string.

Lemma accepted_row_record st i row b :
  bills (process_row env headers st i row) = bills st ++ [b] ->
  row_record env headers row = Some b.
Proof.
  rewrite process_row_after. unfold after_row. simpl.
  intros H. apply app_inv_head in H.
  destruct (row_record env headers row); simpl in H; congruence.
Qed.

Lemma row_record_inv row b :
  row_record env headers row = Some b ->
  exists f x,
    extract headers row = Ok f /\ f_name f <> "" /\ f_due_date f <> ""
    /\ PyFloat.float (amount_text (f_amount f)) = Ok x
    /\ b = Bill.mk (f_name f) (f_category f)
             (date_policy (zero_filled_year env) (f_due_date f))
             x (f_recurrence f) (f_notes f).
Proof.
  unfold row_record, passes_check.
  destruct (extract headers row) as [f|]; [|done].
  destruct (PyStr.truthy (f_name f)) eqn:Hn; [|done].
  destruct (PyStr.truthy (f_due_date f)) eqn:Hd; [|done]. simpl.
  destruct (PyFloat.float _) as [x|] eqn:Hx; [|done].
  intros [= <-]. exists f, x.
  apply truthy_nonempty in Hn, Hd. done.
Qed.

(** C2, as amended. The record of an accepted row carries the due date
    of the ordered policy: the raw date is parsed as YY-MM-DD or YYYY-MM-DD when
    it contains a dash (by the length of the first dash-separated
    segment), else as MM/DD/YY or MM/DD/YYYY when it contains a slash (by
    the length of the last slash-separated segment), else as YYYYMMDD
    ([date_format]); on success dueDate is the parsed date under
    [%Y-%m-%d], of the shape YYYY-MM-DD whenever the year is printed with
    four digits, that is when the year is at least 1000 or the platform
    fills [%Y] with zeros; on failure dueDate is the raw text, and the
    record is in the list all the same. *)
Theorem C2_due_date_policy st i row b :
  bills (process_row env headers st i row) = bills st ++ [b] ->
  exists f,
    extract headers row = Ok f /\ f_due_date f <> ""
    /\ match strptime (f_due_date f) (date_format (f_due_date f)) with
       | Ok dt =>
           Bill.dueDate b = strftime_Y_m_d (zero_filled_year env) dt
           /\ (zero_filled_year env = true \/ (1000 <= year dt)%Z ->
               is_iso_date (Bill.dueDate b) = true)
       | Raise _ => Bill.dueDate b = f_due_date f
       end.
Proof.
  intros Hb. apply accepted_row_record, row_record_inv in Hb
    as (f & x & Hf & _ & Hd & _ & ->).
  exists f. split; [done|]. split; [done|]. simpl. unfold date_policy.
  destruct (strptime _ _) as [dt|] eqn:Hp; [|done].
  split; [done|]. intros Hy. apply strftime_shape.
  destruct Hy as [Hy|Hy]; [by left|right].
  apply strptime_valid in Hp. unfold check_date_fields, MAXYEAR in Hp.
  repeat (apply andb_true_iff in Hp as [Hp ?]). lia.
Qed.

End Rows.

Lemma C2_due_date_policy_witness :
  (exists f,
     Spec.extract (Converter.headers_of Samples.full_header)
       (Csv.dict_row Samples.full_header Samples.rent) = Ok f
     /\ Spec.f_due_date f <> ""
     /\ match Datetime.strptime (Spec.f_due_date f)
                (Spec.date_format (Spec.f_due_date f)) with
        | Ok dt =>
            "2024-03-15" = Datetime.strftime_Y_m_d true dt
            /\ (true = true \/ (1000 <= Datetime.year dt)%Z ->
                Spec.is_iso_date "2024-03-15" = true)
        | Raise _ => "2024-03-15" = Spec.f_due_date f
        end)
  /\ (exists f,
     Spec.extract (Converter.headers_of Samples.full_header)
       (Csv.dict_row Samples.full_header Samples.odd_date) = Ok f
     /\ Spec.f_due_date f <> ""
     /\ match Datetime.strptime (Spec.f_due_date f)
                (Spec.date_format (Spec.f_due_date f)) with
        | Ok dt =>
            "not-a-date" = Datetime.strftime_Y_m_d true dt
            /\ (true = true \/ (1000 <= Datetime.year dt)%Z ->
                Spec.is_iso_date "not-a-date" = true)
        | Raise _ => "not-a-date" = Spec.f_due_date f
        end).
Proof.
  split.
  - apply (C2_due_date_policy Samples.env
             (Converter.headers_of Samples.full_header) Samples.start 0
             (Csv.dict_row Samples.full_header Samples.rent)
             Samples.rent_bill).
    vm_compute. reflexivity.
  - apply (C2_due_date_policy Samples.env
             (Converter.headers_of Samples.full_header) Samples.start 0
             (Csv.dict_row Samples.full_header Samples.odd_date)
             (Bill.mk "Water" "" "not-a-date"
                (S754_finite false 8796093022208000 (-43)) "Yearly" "meter 7")).
    vm_compute. reflexivity.
Defined.

(** C2, as stated, fails where the C library prints a year below 1000
    without leading zeros: the raw date "0999-01-02" parses as
    YYYY-MM-DD, the row is accepted, and its dueDate is "999-01-02",
    which is not of the shape YYYY-MM-DD. *)
Lemma C2_small_year_not_iso :
  Datetime.strptime "0999-01-02" (Spec.date_format "0999-01-02")
    = Ok (Datetime.mkdate 999 1 2)
  /\ Converter.bills
       (Converter.process_row Samples.env_unfilled
          (Converter.headers_of Samples.full_header) Samples.start 0
          (Csv.dict_row Samples.full_header Samples.old_loan))
     = [Bill.mk "Loan" "Debt" "999-01-02"
          (S754_finite false 5629499534213120 (-50)) "Monthly" ""]
  /\ Spec.is_iso_date "999-01-02" = false.
Proof. repeat split; vm_compute; reflexivity. Qed.

Section Amounts.

Import Converter Spec Datetime.

Variable env : environment.
Variable headers : gmap string string.

Lemma remove_filter c s :
  list_ascii_of_string (PyStr.remove c s) =
    filter (fun d => d <> c) (list_ascii_of_string s).
Proof.
  induction s as [|d s IH]; simpl; [done|].
  rewrite filter_cons.
  destruct (Ascii.eqb_spec c d) as [->|Hne].
  - by rewrite decide_False by (intros H; by apply H).
  - rewrite decide_True by congruence. simpl. by rewrite IH.
Qed.

(** The text handed to [float] is the amount without its dollar signs
    and commas, all else in place. *)
Lemma amount_text_filter a :
  list_ascii_of_string (amount_text a) =
    filter (fun d => d <> "$"%char /\ d <> ","%char) (list_ascii_of_string a).
Proof.
  unfold amount_text. rewrite !remove_filter, list_filter_filter.
  apply list_filter_iff. intros d. tauto.
Qed.

(** The binary64 value written 1234.56 lies within half a unit in the
    last place of 123456/100. *)
Lemma binary64_1234_56_nearest :
  (Z.abs (100 * 5429652300748554 - 123456 * 2 ^ 42) <= 50)%Z.
Proof. vm_compute. discriminate. Qed.

(** C3. For a row that reaches amount parsing, the text parsed is the
    raw amount with every dollar sign and every comma removed; when
    [float] accepts it, the record appended has that value as amountDue;
    when [float] rejects it, no record is appended, an error line is
    printed for the row, and the loop goes on with the rows that follow.
    "$1,234.56" gives 1234.56 and "0" gives 0.0. *)
Theorem C3_amount_parse st i row f :
  extract headers row = Ok f -> passes_check f = true ->
  list_ascii_of_string (amount_text (f_amount f)) =
    filter (fun d => d <> "$"%char /\ d <> ","%char)
           (list_ascii_of_string (f_amount f))
  /\ match PyFloat.float (amount_text (f_amount f)) with
     | Ok x =>
         exists b, bills (process_row env headers st i row) = bills st ++ [b]
                   /\ Bill.amountDue b = x
     | Raise e =>
         bills (process_row env headers st i row) = bills st
         /\ In (RowError (i + 1) e) (console (process_row env headers st i row))
         /\ forall rows,
             bills (loop env headers i (row :: rows) st) =
             bills (loop env headers (S i) rows st)
     end
  /\ PyFloat.float (amount_text "$1,234.56") = Ok Samples.binary64_1234_56
  /\ PyFloat.float (amount_text "0") = Ok (S754_zero false).
Proof.
  intros Hf Hc. split; [apply amount_text_filter|].
  split; [|split; vm_compute; reflexivity].
  pose proof (process_row_after env headers st i row) as Hp.
  unfold after_row, row_record, row_category, row_events in Hp.
  rewrite Hf, Hc in Hp.
  destruct (PyFloat.float (amount_text (f_amount f))) as [x|e] eqn:Hx.
  - eexists. rewrite Hp. simpl. split; reflexivity.
  - rewrite Hp. simpl. split; [by rewrite app_nil_r|]. split.
    + apply in_or_app. right. apply in_or_app. right. by left.
    + intros rows. simpl. rewrite !loop_bills, Hp. simpl.
      by rewrite app_nil_r.
Qed.

End Amounts.

Lemma C3_amount_parse_witness :
  PyFloat.float (Spec.amount_text "abc") = Raise ValueError
  /\ Converter.bills
       (Converter.process_row Samples.env
          (Converter.headers_of Samples.full_header) Samples.start 0
          (Csv.dict_row Samples.full_header Samples.bad_amount)) = [].
Proof.
  split; [vm_compute; reflexivity|].
  pose proof (C3_amount_parse Samples.env
                (Converter.headers_of Samples.full_header) Samples.start 0
                (Csv.dict_row Samples.full_header Samples.bad_amount)
                (Spec.mkfields "Gas" "Utilities" "20240315" "abc" "" "")
                ltac:(vm_compute; reflexivity) ltac:(vm_compute; reflexivity))
    as (_ & H & _).
  change (PyFloat.float (Spec.amount_text
            (Spec.f_amount (Spec.mkfields "Gas" "Utilities" "20240315" "abc" "" ""))))
    with (@Raise spec_float ValueError) in H.
  exact (proj1 H).
Defined.


Section Runs.

Import Converter Spec Datetime.

Lemma convert_written env file p :
  written (convert_csv_to_json env file) = Some p ->
  exists fns recs, file = Records (fns :: recs) /\ output_writable env = true.
Proof.
  destruct file as [| |[|fns recs]]; simpl; try done.
  destruct (output_writable env) eqn:Hw; [|done]. eauto.
Qed.

Lemma rows_of_app fns recs1 recs2 :
  rows_of fns (recs1 ++ recs2) = rows_of fns recs1 ++ rows_of fns recs2.
Proof. unfold rows_of. by rewrite filter_app, fmap_app. Qed.

Lemma rows_of_cons fns r recs :
  r <> [] -> rows_of fns (r :: recs) = Csv.dict_row fns r :: rows_of fns recs.
Proof. intros Hr. unfold rows_of. by rewrite filter_cons_True. Qed.

Lemma elem_of_rows_of fns recs row :
  row ∈ rows_of fns recs <-> exists r, In r recs /\ r <> [] /\ row = Csv.dict_row fns r.
Proof.
  unfold rows_of. rewrite list_elem_of_fmap. split.
  - intros (r & -> & Hr). apply list_elem_of_filter in Hr as [Hne Hr].
    exists r. by rewrite <- list_elem_of_In.
  - intros (r & Hr & Hne & ->). exists r. split; [done|].
    apply list_elem_of_filter. by rewrite list_elem_of_In.
Qed.

Lemma row_category_Some headers row c :
  row_category headers row = Some c <->
  c <> "" /\ exists f, extract headers row = Ok f /\ f_name f <> ""
                       /\ f_due_date f <> "" /\ f_category f = c.
Proof.
  unfold row_category, passes_check.
  destruct (extract headers row) as [f|e].
  - split.
    + destruct (PyStr.truthy (f_name f)) eqn:Hn; [|done].
      destruct (PyStr.truthy (f_due_date f)) eqn:Hd; [|done].
      destruct (PyStr.truthy (f_category f)) eqn:Hc; [|done]. simpl.
      apply truthy_nonempty in Hn, Hd, Hc.
      intros [= <-]. split; [done|]. by exists f.
    + intros (Hc & f' & [= <-] & Hn & Hd & <-).
      apply truthy_nonempty in Hn, Hd, Hc. by rewrite Hn, Hd, Hc.
  - split; [done|]. by intros (_ & f & ? & _).
Qed.

(** C4. customCategories is sorted in the strict code-point order, hence
    free of duplicates, and holds exactly the non-empty categories of
    the rows that passed the name and due-date check: whether the amount
    of such a row parses plays no part, and a row that failed the check
    contributes nothing. *)
Theorem C4_custom_categories env fns recs :
  output_writable env = true -> enumerates (set_iteration env) ->
  exists p,
    written (convert_csv_to_json env (Records (fns :: recs))) = Some p
    /\ StronglySorted PyStr.lt (Payload.customCategories p)
    /\ NoDup (Payload.customCategories p)
    /\ forall c,
         In c (Payload.customCategories p) <->
         c <> "" /\
         exists r f, In r recs /\ r <> []
           /\ extract (headers_of fns) (Csv.dict_row fns r) = Ok f
           /\ f_name f <> "" /\ f_due_date f <> "" /\ f_category f = c.
Proof.
  intros Hw Hit. rewrite (convert_records env fns recs Hw). simpl.
  eexists. split; [reflexivity|]. simpl.
  split; [by apply sorted_strictly|]. split.
  - unfold sorted. rewrite merge_sort_Permutation, (Hit _). apply NoDup_elements.
  - intros c. rewrite <- list_elem_of_In, (sorted_elem_of _ _ _ Hit).
    rewrite elem_of_list_to_set, list_elem_of_omap. split.
    + intros (row & Hrow & Hc). apply row_category_Some in Hc as (Hc & f & Hf).
      split; [done|]. apply elem_of_rows_of in Hrow as (r & Hr & Hne & ->).
      by exists r, f.
    + intros (Hc & r & f & Hr & Hne & Hf).
      exists (Csv.dict_row fns r). split.
      * apply elem_of_rows_of. by exists r.
      * apply row_category_Some. split; [done|]. by exists f.
Qed.

(** C5. The bills of the payload are the records of the accepted rows,
    one for each and in the order of the rows: every iteration appends
    the record of its row or nothing, and the list written is the list of
    those records over the data rows of the file. *)
Theorem C5_bills_in_row_order env file p :
  written (convert_csv_to_json env file) = Some p ->
  exists fns recs,
    file = Records (fns :: recs)
    /\ (forall st i row,
          bills (process_row env (headers_of fns) st i row) =
          bills st ++ option_list (row_record env (headers_of fns) row))
    /\ Payload.bills p =
         omap (row_record env (headers_of fns)) (rows_of fns recs).
Proof.
  intros Hp. destruct (convert_written _ _ _ Hp) as (fns & recs & -> & Hw).
  exists fns, recs. split; [done|]. split.
  - intros st i row. by rewrite process_row_after.
  - rewrite (convert_records env fns recs Hw) in Hp. by injection Hp as <-.
Qed.

End Runs.

Lemma C4_custom_categories_witness :
  exists p,
    Converter.written (Converter.convert_csv_to_json Samples.env Samples.file) = Some p
    /\ Payload.customCategories p = ["Housing"; "Utilities"].
Proof.
  destruct (C4_custom_categories Samples.env Samples.full_header
              [Samples.no_name; Samples.rent; Samples.bad_amount;
               Samples.odd_date; Samples.short]
              eq_refl (fun s => Permutation_refl _)) as (p & Hp & _).
  exists p. split; [exact Hp|].
  vm_compute in Hp. injection Hp as <-. reflexivity.
Defined.

Lemma C5_bills_in_row_order_witness :
  exists fns recs,
    Samples.file = Records (fns :: recs)
    /\ [Samples.rent_bill; Samples.water_bill] =
         omap (Spec.row_record Samples.env (Converter.headers_of fns))
              (Spec.rows_of fns recs).
Proof.
  destruct (C5_bills_in_row_order Samples.env Samples.file
              (Payload.mk "2024-05-01T09:30:00Z" "1.0"
                 [Samples.rent_bill; Samples.water_bill]
                 ["Housing"; "Utilities"])
              ltac:(vm_compute; reflexivity)) as (fns & recs & Hf & _ & Hb).
  exists fns, recs. split; [exact Hf|exact Hb].
Defined.

Section Skips.

Import Converter Spec Datetime.

Lemma extract_inv headers row f :
  extract headers row = Ok f ->
  get_val headers row "Name" "" = Ok (f_name f)
  /\ get_val headers row "Due Date" "" = Ok (f_due_date f).
Proof.
  unfold extract, rbind.
  repeat (case_match; try done). by intros [= <-].
Qed.

(** A row whose name or raw due date is empty yields no record and no
    category. *)
Lemma required_missing headers row :
  get_val headers row "Name" "" = Ok "" \/
  get_val headers row "Due Date" "" = Ok "" ->
  forall env, row_record env headers row = None
              /\ row_category headers row = None.
Proof.
  intros H env. unfold row_record, row_category.
  destruct (extract headers row) as [f|e] eqn:Hf; [|done].
  apply extract_inv in Hf as [Hn Hd].
  assert (passes_check f = false) as ->; [|done].
  unfold passes_check.
  destruct H as [H|H]; rewrite H in *.
  - injection Hn as <-. done.
  - injection Hd as <-. apply andb_false_r.
Qed.

(** The body raises exactly when [row_exception] says so. *)
Lemma row_body_throw env headers i row st e :
  (row_body env headers i row st).1 = Throw e <->
  row_exception headers row = Some e.
Proof.
  unfold row_body, row_exception, extract, passes_check, amount_text.
  unfold bind, lift, rbind.
  destruct (get_val headers row "Name" "") as [name|e1];
    [|simpl; split; congruence].
  destruct (get_val headers row "Category" "Other") as [category|e1];
    [|simpl; split; congruence].
  destruct (get_val headers row "Due Date" "") as [due_date|e1];
    [|simpl; split; congruence].
  destruct (get_val headers row "Amount" "0") as [amount|e1];
    [|simpl; split; congruence].
  destruct (get_val headers row "Recurrence" "Monthly") as [recurrence|e1];
    [|simpl; split; congruence].
  destruct (get_val headers row "Notes" "") as [notes|e1];
    [|simpl; split; congruence].
  cbn [f_name f_category f_due_date f_amount f_recurrence f_notes].
  destruct (PyStr.truthy name) eqn:Hn; cbn [negb orb andb];
    [|simpl; split; congruence].
  destruct (PyStr.truthy due_date) eqn:Hd; cbn [negb orb andb];
    [|simpl; split; congruence].
  apply truthy_nonempty in Hd.
  destruct (PyStr.truthy category) eqn:Hc;
    unfold add_category, ret; rewrite (format_date_nonempty env i due_date _ Hd);
    destruct (PyFloat.float _) as [x|e1]; unfold append_bill; simpl;
    split; congruence.
Qed.

Lemma row_exception_no_record env headers row e :
  row_exception headers row = Some e -> row_record env headers row = None.
Proof.
  unfold row_exception, row_record.
  destruct (extract headers row) as [f|]; [|done].
  destruct (passes_check f); [|done].
  by destruct (PyFloat.float _).
Qed.

Lemma row_exception_event headers i row e :
  row_exception headers row = Some e ->
  In (RowError (i + 1) e) (row_events headers i row).
Proof.
  unfold row_exception, row_events.
  destruct (extract headers row) as [f|e1]; [|intros [= ->]; by left].
  destruct (passes_check f); [|done].
  destruct (PyFloat.float _) as [x|e1]; [done|].
  intros [= ->]. apply in_or_app. right. by left.
Qed.

Lemma no_empty_date_warning headers i row n :
  ~ In (WarnEmptyDate n) (row_events headers i row).
Proof.
  unfold row_events.
  destruct (extract headers row) as [f|e1]; [|by intros [|[]]].
  destruct (passes_check f); [|by intros [|[]]].
  destruct (strptime _ _), (PyFloat.float _); simpl; intuition congruence.
Qed.

(** The bills of a run do not change when a row without a record is
    taken out of the file. *)
Lemma bills_without_row env fns recs1 r recs2 :
  row_record env (headers_of fns) (Csv.dict_row fns r) = None ->
  omap (row_record env (headers_of fns)) (rows_of fns (recs1 ++ r :: recs2)) =
  omap (row_record env (headers_of fns)) (rows_of fns (recs1 ++ recs2)).
Proof.
  intros Hr. rewrite !rows_of_app, !omap_app. f_equal.
  destruct (decide (r = [])) as [->|Hne]; [done|].
  rewrite rows_of_cons by done. simpl. by rewrite Hr.
Qed.

(** C6. A row whose extracted name or raw due date is empty produces no
    record in any iteration; the bills of the run are those of the same
    file without that row, the count reported at the end is the number
    of those bills, and the rows after it are processed. *)
Theorem C6_required_fields env fns recs1 r recs2 :
  output_writable env = true ->
  get_val (headers_of fns) (Csv.dict_row fns r) "Name" "" = Ok "" \/
  get_val (headers_of fns) (Csv.dict_row fns r) "Due Date" "" = Ok "" ->
  (forall st i,
      bills (process_row env (headers_of fns) st i (Csv.dict_row fns r)) = bills st)
  /\ exists p p',
       written (convert_csv_to_json env (Records (fns :: recs1 ++ r :: recs2))) = Some p
       /\ written (convert_csv_to_json env (Records (fns :: recs1 ++ recs2))) = Some p'
       /\ Payload.bills p = Payload.bills p'
       /\ last (printed (convert_csv_to_json env (Records (fns :: recs1 ++ r :: recs2))))
          = Some (Converted (length (Payload.bills p'))).
Proof.
  intros Hw Hreq.
  destruct (required_missing _ _ Hreq env) as [Hrec _]. split.
  - intros st i. rewrite process_row_after. unfold after_row. simpl.
    by rewrite Hrec, app_nil_r.
  - rewrite !(convert_records env fns _ Hw). simpl.
    eexists _, _. split; [reflexivity|]. split; [reflexivity|]. simpl.
    rewrite (bills_without_row env fns recs1 r recs2 Hrec).
    split; [done|]. by rewrite last_snoc.
Qed.

(** C7. An exception raised by the body of the loop for one row is
    caught in that iteration: the run returns [True], the error line of
    the row is printed under the row's number, and the document is
    written with the bills of the other rows, which are the records of
    the rows before the failing row followed by the records of the rows
    after it; they are the bills of the file without the failing row. *)
Theorem C7_row_errors_isolated env fns recs1 r recs2 i0 st0 e :
  output_writable env = true -> r <> [] ->
  (row_body env (headers_of fns) i0 (Csv.dict_row fns r) st0).1 = Throw e ->
  returned (convert_csv_to_json env (Records (fns :: recs1 ++ r :: recs2))) = true
  /\ In (RowError (length (rows_of fns recs1) + 1) e)
        (printed (convert_csv_to_json env (Records (fns :: recs1 ++ r :: recs2))))
  /\ exists p p',
       written (convert_csv_to_json env (Records (fns :: recs1 ++ r :: recs2))) = Some p
       /\ written (convert_csv_to_json env (Records (fns :: recs1 ++ recs2))) = Some p'
       /\ Payload.bills p = Payload.bills p'
       /\ Payload.bills p =
            omap (row_record env (headers_of fns)) (rows_of fns recs1)
            ++ omap (row_record env (headers_of fns)) (rows_of fns recs2).
Proof.
  intros Hw Hne Hthrow. apply row_body_throw in Hthrow.
  assert (Hb : omap (row_record env (headers_of fns))
                 (rows_of fns (recs1 ++ r :: recs2)) =
               omap (row_record env (headers_of fns))
                 (rows_of fns (recs1 ++ recs2))).
  { apply bills_without_row. by eapply row_exception_no_record. }
  rewrite !(convert_records env fns _ Hw). simpl.
  split; [done|]. split.
  - apply in_or_app. left. rewrite rows_of_app, rows_of_cons by done.
    rewrite imap_app, concat_app. apply in_or_app. right.
    simpl. apply in_or_app. left.
    rewrite Nat.add_0_r. by apply row_exception_event.
  - eexists _, _. split; [reflexivity|]. split; [reflexivity|]. simpl.
    split; [exact Hb|]. etransitivity; [exact Hb|].
    by rewrite rows_of_app, omap_app.
Qed.

(** C8. No record of the output has an empty dueDate, and the warning of
    the empty-date branch (lines 68-70) is never printed. *)
Theorem C8_due_date_nonempty env file p b :
  written (convert_csv_to_json env file) = Some p ->
  In b (Payload.bills p) ->
  Bill.dueDate b <> ""
  /\ forall n, ~ In (WarnEmptyDate n) (printed (convert_csv_to_json env file)).
Proof.
  intros Hp Hb. destruct (convert_written _ _ _ Hp) as (fns & recs & -> & Hw).
  rewrite (convert_records env fns recs Hw) in *. simpl in *.
  injection Hp as <-. simpl in Hb. split.
  - apply list_elem_of_In, list_elem_of_omap in Hb as (row & _ & Hrow).
    apply row_record_inv in Hrow as (f & x & _ & _ & Hd & _ & ->). simpl.
    by apply date_policy_nonempty.
  - intros n Hin. apply in_app_or in Hin as [Hin|[Hin|[]]]; [|done].
    apply in_concat in Hin as (evs & Hevs & Hin).
    apply list_elem_of_In, list_elem_of_lookup in Hevs as [j Hj].
    apply list_lookup_imap_Some in Hj as (row & _ & ->).
    by apply no_empty_date_warning in Hin.
Qed.

End Skips.

Lemma C6_required_fields_witness :
  exists p p',
    Converter.written (Converter.convert_csv_to_json Samples.env
      (Records (Samples.full_header :: [Samples.rent] ++ Samples.no_name :: [Samples.odd_date])))
      = Some p
    /\ Converter.written (Converter.convert_csv_to_json Samples.env
      (Records (Samples.full_header :: [Samples.rent] ++ [Samples.odd_date])))
      = Some p'
    /\ Payload.bills p = Payload.bills p'
    /\ last (Converter.printed (Converter.convert_csv_to_json Samples.env
      (Records (Samples.full_header :: [Samples.rent] ++ Samples.no_name :: [Samples.odd_date]))))
       = Some (Converted (length (Payload.bills p'))).
Proof.
  exact (proj2 (C6_required_fields Samples.env Samples.full_header
                  [Samples.rent] Samples.no_name [Samples.odd_date]
                  eq_refl ltac:(left; vm_compute; reflexivity))).
Defined.

Lemma C7_row_errors_isolated_witness :
  Converter.returned (Converter.convert_csv_to_json Samples.env
    (Records (Samples.full_header :: [Samples.rent] ++ Samples.short :: [Samples.odd_date])))
    = true
  /\ In (RowError 2 AttributeError)
       (Converter.printed (Converter.convert_csv_to_json Samples.env
          (Records (Samples.full_header :: [Samples.rent] ++ Samples.short :: [Samples.odd_date]))))
  /\ exists p,
       Converter.written (Converter.convert_csv_to_json Samples.env
         (Records (Samples.full_header :: [Samples.rent] ++ Samples.short :: [Samples.odd_date])))
         = Some p
       /\ Payload.bills p = [Samples.rent_bill; Samples.water_bill].
Proof.
  destruct (C7_row_errors_isolated Samples.env Samples.full_header
              [Samples.rent] Samples.short [Samples.odd_date]
              0 Samples.start AttributeError
              eq_refl ltac:(discriminate) ltac:(vm_compute; reflexivity))
    as (Hret & Hev & p & p' & Hp & _ & _ & Hb).
  split; [exact Hret|]. split; [exact Hev|].
  exists p. split; [exact Hp|]. rewrite Hb. vm_compute. reflexivity.
Defined.

Lemma C8_due_date_nonempty_witness :
  Bill.dueDate Samples.water_bill <> "".
Proof.
  exact (proj1 (C8_due_date_nonempty Samples.env Samples.file
                  (Payload.mk "2024-05-01T09:30:00Z" "1.0"
                     [Samples.rent_bill; Samples.water_bill]
                     ["Housing"; "Utilities"])
                  Samples.water_bill
                  ltac:(vm_compute; reflexivity)
                  ltac:(right; left; reflexivity))).
Defined.

Section Determinism.

Import Converter Spec Datetime.

Lemma omap_pointwise {A B} (f g : A -> option B) (l : list A) :
  (forall x, f x = g x) -> omap f l = omap g l.
Proof.
  intros Hfg. induction l as [|x l IH]; [done|].
  change (omap f (x :: l)) with
    (match f x with Some y => y :: omap f l | None => omap f l end).
  change (omap g (x :: l)) with
    (match g x with Some y => y :: omap g l | None => omap g l end).
  by rewrite Hfg, IH.
Qed.

Lemma row_record_env env1 env2 headers row :
  zero_filled_year env1 = zero_filled_year env2 ->
  row_record env1 headers row = row_record env2 headers row.
Proof. intros H. unfold row_record. by rewrite H. Qed.

(** C9. Amount texts that are no plain decimal numerals are accepted:
    "nan", "inf", "1e3" and "+5" parse to NaN, to infinity, to the value
    of "1000" and to the value of "5"; the rows that carry them are not
    skipped, and their records have these values as amountDue. *)
Theorem C9_special_amounts_accepted :
  PyFloat.float (amount_text "nan") = Ok S754_nan
  /\ PyFloat.float (amount_text "inf") = Ok (S754_infinity false)
  /\ PyFloat.float (amount_text "1e3") = PyFloat.float (amount_text "1000")
  /\ PyFloat.float (amount_text "1e3")
     = Ok (binary_normalize PyFloat.prec PyFloat.emax 1000 0 false)
  /\ PyFloat.float (amount_text "+5") = PyFloat.float (amount_text "5")
  /\ PyFloat.float (amount_text "+5")
     = Ok (binary_normalize PyFloat.prec PyFloat.emax 5 0 false)
  /\ (fmap Bill.amountDue ∘ Payload.bills)
       <$> written (convert_csv_to_json Samples.env Samples.special_amounts)
     = Some [S754_nan; S754_infinity false;
             binary_normalize PyFloat.prec PyFloat.emax 1000 0 false;
             binary_normalize PyFloat.prec PyFloat.emax 5 0 false]
  /\ printed (convert_csv_to_json Samples.env Samples.special_amounts)
     = [Converted 4].
Proof. repeat split; vm_compute; reflexivity. Qed.

(** C10. Two runs on the same input, on the same platform, at different
    times and with different iteration orders of the category set, write
    the same version, the same bills and the same customCategories; the
    exportDate of each is its own clock reading followed by "Z". *)
Theorem C10_deterministic env1 env2 file p1 p2 :
  zero_filled_year env1 = zero_filled_year env2 ->
  enumerates (set_iteration env1) -> enumerates (set_iteration env2) ->
  written (convert_csv_to_json env1 file) = Some p1 ->
  written (convert_csv_to_json env2 file) = Some p2 ->
  Payload.version p1 = Payload.version p2
  /\ Payload.bills p1 = Payload.bills p2
  /\ Payload.customCategories p1 = Payload.customCategories p2
  /\ Payload.exportDate p1 = (now_isoformat env1 ++ "Z")%string
  /\ Payload.exportDate p2 = (now_isoformat env2 ++ "Z")%string.
Proof.
  intros Hz H1 H2 Hp1 Hp2.
  destruct (convert_written _ _ _ Hp1) as (fns & recs & -> & Hw1).
  destruct (convert_written _ _ _ Hp2) as (fns' & recs' & [= <- <-] & Hw2).
  rewrite (convert_records _ fns recs Hw1) in Hp1.
  rewrite (convert_records _ fns recs Hw2) in Hp2.
  injection Hp1 as <-. injection Hp2 as <-. simpl.
  split; [done|]. split.
  - apply omap_pointwise. intros row. by apply row_record_env.
  - split; [|done].
    by rewrite (sorted_enumeration _ _ H1), (sorted_enumeration _ _ H2).
Qed.

End Determinism.

Lemma C10_deterministic_witness :
  exists p1 p2,
    Converter.written (Converter.convert_csv_to_json Samples.env Samples.file) = Some p1
    /\ Converter.written (Converter.convert_csv_to_json Samples.env_later Samples.file) = Some p2
    /\ Payload.bills p1 = Payload.bills p2
    /\ Payload.customCategories p1 = Payload.customCategories p2
    /\ Payload.exportDate p1 <> Payload.exportDate p2.
Proof.
  eexists _, _. split; [vm_compute; reflexivity|]. split; [vm_compute; reflexivity|].
  destruct (C10_deterministic Samples.env Samples.env_later Samples.file _ _
              eq_refl (fun s => Permutation_refl _)
              (fun s => reverse_Permutation _)
              ltac:(vm_compute; reflexivity) ltac:(vm_compute; reflexivity))
    as (_ & Hb & Hc & _).
  split; [exact Hb|]. split; [exact Hc|]. vm_compute. discriminate.
Defined.


(** ** The model on concrete inputs *)

Section Checks.

Import Converter Spec.

Example strip_sample : PyStr.strip "  Rent of May " = "Rent of May".
Proof. reflexivity. Qed.

Example split_sample :
  PyStr.split "-" "24-03-15" = ["24"; "03"; "15"]
  /\ PyStr.split "/" "/a//" = [""; "a"; ""; ""].
Proof. split; reflexivity. Qed.

(** Header lookup ignores case and surrounding white space. *)
Example header_lookup_sample :
  headers_of ["Name"; " due date "] !! PyStr.lower "Due Date" = Some " due date ".
Proof. vm_compute. reflexivity. Qed.

(** The regular expressions backtrack as [re] does: in [%Y%m%d] the month
    takes two digits when it can and one when it must. *)
Example strptime_backtracking :
  Datetime.strptime "2024111" "%Y%m%d" = Ok (Datetime.mkdate 2024 11 1)
  /\ Datetime.strptime "202411" "%Y%m%d" = Ok (Datetime.mkdate 2024 1 1)
  /\ Datetime.strptime "202410" "%Y%m%d" = Raise ValueError
  /\ Datetime.strptime "2024-1-1x" "%Y-%m-%d" = Raise ValueError
  /\ Datetime.strptime "20230229" "%Y%m%d" = Raise ValueError
  /\ Datetime.strptime "0000-01-01" "%Y-%m-%d" = Raise ValueError.
Proof. repeat split; vm_compute; reflexivity. Qed.

(** Two-digit years: 00..68 are 2000..2068, 69..99 are 1969..1999. *)
Example two_digit_year_pivot :
  Datetime.strptime "68-1-1" "%y-%m-%d" = Ok (Datetime.mkdate 2068 1 1)
  /\ Datetime.strptime "69-1-1" "%y-%m-%d" = Ok (Datetime.mkdate 1969 1 1).
Proof. split; vm_compute; reflexivity. Qed.

(** The date examples of the specification. *)
Example date_policy_samples :
  date_policy true "2024-03-15" = "2024-03-15"
  /\ date_policy true "24-03-15" = "2024-03-15"
  /\ date_policy true "03/15/2024" = "2024-03-15"
  /\ date_policy true "03/15/24" = "2024-03-15"
  /\ date_policy true "20240315" = "2024-03-15"
  /\ date_policy true "not-a-date" = "not-a-date".
Proof. repeat split; vm_compute; reflexivity. Qed.

(** The year below 1000 under the two behaviours of [%Y]. *)
Example small_year_samples :
  date_policy true "0999-01-02" = "0999-01-02"
  /\ date_policy false "0999-01-02" = "999-01-02".
Proof. split; vm_compute; reflexivity. Qed.

(** [float] on texts at the edges of its grammar and of binary64. *)
Example float_samples :
  PyFloat.float " 1_000.5 " = Ok (S754_finite false 8800491068719104 (-43))
  /\ PyFloat.float "1__0" = Raise ValueError
  /\ PyFloat.float "1." = PyFloat.float "1"
  /\ PyFloat.float ".5" = Ok (S754_finite false 4503599627370496 (-53))
  /\ PyFloat.float "." = Raise ValueError
  /\ PyFloat.float "1e" = Raise ValueError
  /\ PyFloat.float "" = Raise ValueError
  /\ PyFloat.float "-0" = Ok (S754_zero true)
  /\ PyFloat.float "-Infinity" = Ok (S754_infinity true)
  /\ PyFloat.float "1e400" = Ok (S754_infinity false)
  /\ PyFloat.float "1e-400" = Ok (S754_zero false)
  /\ PyFloat.float "4.9e-324" = Ok (S754_finite false 1 (-1074))
  /\ PyFloat.float "9007199254740993" = Ok (S754_finite false 4503599627370496 1)
  /\ PyFloat.float "0.1" = Ok (S754_finite false 7205759403792794 (-56)).
Proof. repeat split; vm_compute; reflexivity. Qed.

(** A run over one row of each kind: the row without a name and the short
    row are skipped, the row with the amount "abc" is skipped after its
    category was added, the row with the odd date keeps it. *)
Example run_sample :
  convert_csv_to_json Samples.env Samples.file =
    mkoutcome true
      (Some (Payload.mk "2024-05-01T09:30:00Z" "1.0"
               [Samples.rent_bill; Samples.water_bill]
               ["Housing"; "Utilities"]))
      [SkipRequired 1; RowError 3 ValueError; WarnDate 4 "not-a-date";
       RowError 5 AttributeError; Converted 2].
Proof. vm_compute. reflexivity. Qed.

(** Runs that end with the fatal line or the not-found line. *)
Example fatal_samples :
  convert_csv_to_json Samples.env Missing = mkoutcome false None [NotFound]
  /\ convert_csv_to_json Samples.env (Records []) =
       mkoutcome false None [Fatal TypeError].
Proof. split; reflexivity. Qed.

End Checks.

(** * Further properties *)

(** ** Reading a row by column *)

Section ColumnLookup.

Import Converter Spec Columns.

Lemma last_index_None k fns :
  last_index k fns = None <-> forall h, In h fns -> norm h <> k.
Proof.
  induction fns as [|h fns IH]; simpl; [by split|].
  destruct (last_index k fns) as [j|].
  - split; [done|]. intros H. exfalso.
    assert (Hn : Some j = None); [|done].
    apply IH. intros h' Hh'. apply H. by right.
  - destruct (String.eqb_spec (norm h) k) as [Heq|Hne].
    + split; [done|]. intros H. exfalso. by apply (H h); [left|].
    + split; [|done]. intros _ h' [<-|Hh']; [done|].
      by apply (proj1 IH).
Qed.

Lemma last_index_Some k fns j :
  last_index k fns = Some j ->
  exists pre h post,
    fns = pre ++ h :: post /\ length pre = j /\ norm h = k
    /\ forall h', In h' post -> norm h' <> k.
Proof.
  revert j. induction fns as [|h fns IH]; simpl; [done|]. intros j.
  destruct (last_index k fns) as [j'|] eqn:Hl.
  - intros [= <-]. destruct (IH j' eq_refl) as (pre & h0 & post & -> & <- & Hk & Hpost).
    by exists (h :: pre), h0, post.
  - destruct (String.eqb_spec (norm h) k) as [Heq|Hne]; [|done].
    intros [= <-]. exists [], h, fns. split; [done|]. split; [done|]. split; [done|].
    by apply last_index_None.
Qed.

Lemma last_index_app k pre post :
  last_index k (pre ++ post) =
    match last_index k post with
    | Some j => Some (length pre + j)%nat
    | None => last_index k pre
    end.
Proof.
  induction pre as [|h pre IH]; simpl.
  - by destruct (last_index k post).
  - rewrite IH. destruct (last_index k post); [done|].
    by destruct (last_index k pre).
Qed.

Lemma last_index_lt k fns j : last_index k fns = Some j -> (j < length fns)%nat.
Proof.
  intros (pre & h & post & -> & <- & _)%last_index_Some.
  rewrite length_app. simpl. lia.
Qed.

(** The header index and the row dict, read together: [get_val] yields the
    cell in the column of the last header that resolves to the key. *)
Lemma get_val_cell_at fns (r : Csv.record) key default :
  PyStr.lower key <> "" ->
  get_val (headers_of fns) (Csv.dict_row fns r) key default =
    cell_at fns r key default.
Proof.
  intros Hkey. unfold cell_at, get_val.
  destruct (last_index (PyStr.lower key) fns) as [j|] eqn:Hl.
  - apply last_index_Some in Hl as (pre & h & post & -> & <- & Hk & Hpost).
    unfold norm in *. rewrite <- Hk.
    rewrite headers_of_present by (by rewrite Hk).
    assert (PyStr.truthy h = true) as ->.
    { apply truthy_nonempty. intros ->. by apply Hkey. }
    rewrite dict_row_lookup; [unfold Csv.record; by destruct (r !! length pre)|].
    intros Hin. by apply (Hpost h).
  - rewrite headers_of_absent; [done|]. by apply last_index_None.
Qed.

Lemma lower_field_key key default :
  In (key, default) field_defaults -> PyStr.lower key <> "".
Proof.
  unfold field_defaults. simpl.
  intros H. repeat destruct H as [H|H]; try done; by inversion H.
Qed.

(** The six values of a row, read by column. *)
Lemma extract_cell_at fns (r : Csv.record) :
  extract (headers_of fns) (Csv.dict_row fns r) =
    (name <-- cell_at fns r "Name" "" ;;
     category <-- cell_at fns r "Category" "Other" ;;
     due_date <-- cell_at fns r "Due Date" "" ;;
     amount <-- cell_at fns r "Amount" "0" ;;
     recurrence <-- cell_at fns r "Recurrence" "Monthly" ;;
     notes <-- cell_at fns r "Notes" "" ;;
     Ok (mkfields name category due_date amount recurrence notes))%result.
Proof. unfold extract. by rewrite !get_val_cell_at. Qed.

End ColumnLookup.

Section RunsByExtraction.

Import Converter Spec Columns.

(** An iteration depends on the headers and the row through the six
    extracted values only. *)
Lemma after_row_ext env h h' st i row row' :
  extract h row = extract h' row' ->
  after_row env h st i row = after_row env h' st i row'.
Proof.
  intros H. unfold after_row, row_record, row_category, row_events.
  by rewrite H.
Qed.

Lemma loop_ext env h h' rows rows' :
  Forall2 (fun row row' => extract h row = extract h' row') rows rows' ->
  forall i st, loop env h i rows st = loop env h' i rows' st.
Proof.
  induction 1 as [|row row' rows rows' Hrow _ IH]; intros i st; simpl; [done|].
  by rewrite !process_row_after, (after_row_ext _ _ _ _ _ _ _ Hrow), IH.
Qed.

(** Two files whose records correspond one to one, blank to blank and
    row to row with the same six extracted values, convert alike. *)
Lemma convert_rel env fns fns' recs recs' :
  Forall2 (fun r r' =>
             (r = [] /\ r' = []) \/
             (r <> [] /\ r' <> [] /\
              extract (headers_of fns) (Csv.dict_row fns r) =
              extract (headers_of fns') (Csv.dict_row fns' r'))) recs recs' ->
  convert_csv_to_json env (Records (fns :: recs)) =
  convert_csv_to_json env (Records (fns' :: recs')).
Proof.
  intros Hrel. unfold convert_csv_to_json, Csv.data_records. simpl.
  assert (Hrows : Forall2 (fun row row' =>
                    extract (headers_of fns) row = extract (headers_of fns') row')
            (Csv.dict_row fns <$> filter (fun r => r <> []) recs)
            (Csv.dict_row fns' <$> filter (fun r => r <> []) recs')).
  { induction Hrel as [|r r' recs recs' Hr _ IH]; [constructor|].
    destruct Hr as [[-> ->]|(Hr & Hr' & He)].
    - by rewrite !filter_cons_False by (intros H; by apply H).
    - rewrite !filter_cons_True by done. simpl. by constructor. }
  by rewrite (loop_ext env _ _ _ _ Hrows).
Qed.

Lemma last_index_norm k fns : forall fns',
  map norm fns = map norm fns' -> last_index k fns = last_index k fns'.
Proof.
  induction fns as [|h fns IH]; intros [|h' fns']; simpl; try done.
  intros [= Hh Hfns]. by rewrite (IH fns' Hfns), Hh.
Qed.

(** X1. The spelling of the headers, in case and in surrounding white
    space, has no influence on a run: two files with the same records
    whose header lines agree header by header after [strip] and [lower]
    give the same outcome, console included. *)
Theorem X1_header_spelling env fns fns' recs :
  map norm fns = map norm fns' ->
  convert_csv_to_json env (Records (fns :: recs)) =
  convert_csv_to_json env (Records (fns' :: recs)).
Proof.
  intros Hn. apply convert_rel. apply Forall2_same_length_lookup_2; [done|].
  intros j r r' Hr Hr'. rewrite Hr in Hr'. injection Hr' as <-.
  destruct (decide (r = [])) as [->|Hne]; [by left|right].
  split; [done|]. split; [done|].
  rewrite !extract_cell_at. unfold cell_at.
  by rewrite !(last_index_norm _ fns fns' Hn).
Qed.

Lemma cell_at_insert pre h post (r : list string) c key default :
  norm h <> PyStr.lower key -> (length pre <= length r)%nat ->
  cell_at (pre ++ h :: post) (insert_cell (length pre) c r) key default =
  cell_at (pre ++ post) r key default.
Proof.
  intros Hh Hlen. unfold cell_at, insert_cell.
  rewrite !last_index_app. cbn [last_index].
  destruct (last_index (PyStr.lower key) post) as [j|].
  - rewrite lookup_app_r by (rewrite length_take; lia).
    rewrite length_take, Nat.min_l by done.
    replace (length pre + S j - length pre)%nat with (S j) by lia.
    rewrite <- lookup_drop. done.
  - destruct (String.eqb_spec (norm h) (PyStr.lower key)); [done|].
    destruct (last_index (PyStr.lower key) pre) as [j|] eqn:Hj; [|done].
    apply last_index_lt in Hj.
    rewrite lookup_app_l by (rewrite length_take; lia).
    by rewrite lookup_take_lt.
Qed.

(** X2. A column that resolves to none of the six logical fields changes
    nothing: with its header put in at any position of the header line
    and a cell put in at that position of every data record (each long
    enough to have that position), the outcome of the run is the same,
    console included. *)
Theorem X2_unrecognized_column env pre h post recs recs' :
  unrecognized h ->
  Forall2 (fun r r' =>
             (r = [] /\ r' = []) \/
             (r <> [] /\ (length pre <= length r)%nat
              /\ exists c, r' = insert_cell (length pre) c r)) recs recs' ->
  convert_csv_to_json env (Records ((pre ++ h :: post) :: recs')) =
  convert_csv_to_json env (Records ((pre ++ post) :: recs)).
Proof.
  intros Hh Hrel. symmetry. apply convert_rel.
  eapply Forall2_impl; [exact Hrel|]. clear Hrel.
  intros r r' [[-> ->]|(Hne & Hlen & c & ->)]; [by left|right].
  split; [done|]. split; [unfold insert_cell; by destruct (take _ r)|].
  unfold unrecognized, field_defaults in Hh.
  repeat (apply Forall_cons in Hh as [? Hh]). simpl in *.
  rewrite !extract_cell_at. by rewrite !cell_at_insert.
Qed.

End RunsByExtraction.

Lemma X1_header_spelling_witness :
  Converter.convert_csv_to_json Samples.env
    (Records ([" name"; "CATEGORY"; "due date "; "Amount"; "recurrence"; "NOTES"]
              :: [Samples.rent; Samples.odd_date])) =
  Converter.convert_csv_to_json Samples.env
    (Records (Samples.full_header :: [Samples.rent; Samples.odd_date])).
Proof.
  apply X1_header_spelling. vm_compute. reflexivity.
Defined.

Lemma X2_unrecognized_column_witness :
  Converter.convert_csv_to_json Samples.env
    (Records ((["Name"; "Category"] ++ "Paid By" :: ["Due Date"; "Amount"; "Recurrence"; "Notes"])
              :: [["Rent"; "Housing"; "Ann"; "03/15/24"; "$1,234.56"; "Monthly"; ""]; []])) =
  Converter.convert_csv_to_json Samples.env
    (Records ((["Name"; "Category"] ++ ["Due Date"; "Amount"; "Recurrence"; "Notes"])
              :: [Samples.rent; []])).
Proof.
  apply (X2_unrecognized_column Samples.env ["Name"; "Category"] "Paid By"
           ["Due Date"; "Amount"; "Recurrence"; "Notes"]
           [Samples.rent; []]).
  - unfold Columns.unrecognized, Spec.field_defaults.
    repeat constructor; vm_compute; discriminate.
  - constructor.
    + right. split; [discriminate|]. split; [vm_compute; lia|].
      exists "Ann". reflexivity.
    + constructor; [|constructor]. left. split; reflexivity.
Defined.

(** ** Rows that raise *)

Section RowErrors.

Import Converter Spec Columns.

Lemma cell_at_raises fns r key default e :
  cell_at fns r key default = Raise e -> e = AttributeError.
Proof.
  unfold cell_at. destruct (last_index _ fns); [|done].
  destruct (r !! _); congruence.
Qed.

Lemma cell_at_short fns (r : list string) key default j :
  last_index (PyStr.lower key) fns = Some j -> (length r <= j)%nat ->
  cell_at fns r key default = Raise AttributeError.
Proof.
  intros Hj Hlen. unfold cell_at. rewrite Hj.
  by rewrite (proj2 (lookup_ge_None r j) Hlen).
Qed.

(** The six extractions of a row stop at the first cell that is missing. *)
Lemma extract_short fns (r : list string) key default :
  In (key, default) field_defaults ->
  cell_at fns r key default = Raise AttributeError ->
  extract (headers_of fns) (Csv.dict_row fns r) = Raise AttributeError.
Proof.
  intros Hin Hc. rewrite extract_cell_at. unfold field_defaults in Hin.
  simpl in Hin. unfold rbind.
  repeat destruct Hin as [Hin|Hin]; try done; injection Hin as <- <-;
    repeat (match goal with
            | |- context [match cell_at ?f ?r ?k ?d with _ => _ end] =>
                let E := fresh "E" in
                destruct (cell_at f r k d) as [?|?] eqn:E;
                [|apply cell_at_raises in E as ->; try done]
            end); congruence.
Qed.

Lemma extract_raises fns (r : list string) e :
  extract (headers_of fns) (Csv.dict_row fns r) = Raise e -> e = AttributeError.
Proof.
  rewrite extract_cell_at. unfold rbind.
  repeat (match goal with
          | |- context [match cell_at ?f ?r ?k ?d with _ => _ end] =>
              let E := fresh "E" in
              destruct (cell_at f r k d) as [?|?] eqn:E;
              [|apply cell_at_raises in E as ->; congruence]
          end). done.
Qed.

(** X3. A record too short to have the cell of a logical field whose
    column is in the header is dropped whole, whichever field it is: the
    iteration appends no bill, adds no category and prints one error line
    with [AttributeError]. *)
Theorem X3_short_record env fns (r : list string) st i key default j :
  In (key, default) field_defaults ->
  last_index (PyStr.lower key) fns = Some j -> (length r <= j)%nat ->
  process_row env (headers_of fns) st i (Csv.dict_row fns r) =
    mkstate (bills st) (categories st)
            (console st ++ [RowError (i + 1) AttributeError]).
Proof.
  intros Hin Hj Hlen. rewrite process_row_after.
  unfold after_row, row_record, row_category, row_events.
  rewrite (extract_short fns r key default Hin (cell_at_short _ _ _ _ _ Hj Hlen)).
  simpl. by rewrite app_nil_r.
Qed.

Lemma row_exception_kinds fns (r : list string) e :
  row_exception (headers_of fns) (Csv.dict_row fns r) = Some e ->
  e = AttributeError \/ e = ValueError.
Proof.
  unfold row_exception.
  destruct (extract _ _) as [f|e'] eqn:He.
  - destruct (passes_check f); [|done].
    destruct (PyFloat.float _) as [|e'] eqn:Hf; [done|].
    intros [= <-]. right. by apply float_raises in Hf.
  - intros [= <-]. left. by apply extract_raises in He.
Qed.

Lemma row_events_error h i row n e :
  In (RowError n e) (row_events h i row) <->
  n = (i + 1)%nat /\ row_exception h row = Some e.
Proof.
  unfold row_events, row_exception.
  destruct (extract h row) as [f|e'].
  - destruct (passes_check f).
    + destruct (Datetime.strptime _ _), (PyFloat.float _); simpl;
        split; try (intros [? ?]); intuition congruence.
    + simpl. split; [intuition congruence|]. by intros [_ ?].
  - simpl. split; [intros [[= <- <-]|[]]; done|]. intros [-> [= ->]]. by left.
Qed.

Lemma row_events_skip h i row n :
  In (SkipRequired n) (row_events h i row) <->
  n = (i + 1)%nat /\ exists f, extract h row = Ok f /\ passes_check f = false.
Proof.
  unfold row_events.
  destruct (extract h row) as [f|e'].
  - destruct (passes_check f) eqn:Hc.
    + destruct (Datetime.strptime _ _), (PyFloat.float _); simpl;
        (split; [intuition congruence|]); intros [_ (f' & [= <-] & ?)]; congruence.
    + simpl. split; [intros [[= <-]|[]]; eauto|]. intros [-> _]. by left.
  - simpl. split; [intuition congruence|]. by intros [_ (f & ? & _)].
Qed.

Lemma row_events_warn h i row n raw :
  In (WarnDate n raw) (row_events h i row) <->
  n = (i + 1)%nat /\
  exists f, extract h row = Ok f /\ passes_check f = true /\ f_due_date f = raw
            /\ exists e, Datetime.strptime raw (date_format raw) = Raise e.
Proof.
  unfold row_events.
  destruct (extract h row) as [f|e'].
  - destruct (passes_check f) eqn:Hc.
    + destruct (Datetime.strptime (f_due_date f) _) as [dt|e1] eqn:Hp;
        destruct (PyFloat.float _); simpl.
      all: split;
        [try (intuition congruence);
         try (intros [[= <- <-]|?]; [|intuition congruence]);
         try (split; [done|]; exists f; repeat split; eauto)
        |intros [-> (f' & [= <-] & _ & <- & e2 & He2)]; try congruence; by left].
    + simpl. split; [intuition congruence|].
      intros [_ (f' & [= <-] & ? & _)]. congruence.
  - simpl. split; [intuition congruence|]. by intros [_ (f & ? & _)].
Qed.

(** The console of a run on a file with a header line. *)
Lemma convert_printed env fns recs :
  printed (convert_csv_to_json env (Records (fns :: recs))) =
    concat (imap (fun j row => row_events (headers_of fns) j row) (rows_of fns recs))
    ++ [if output_writable env
        then Converted (length (omap (row_record env (headers_of fns)) (rows_of fns recs)))
        else Fatal OSError].
Proof.
  unfold convert_csv_to_json, rows_of, Csv.data_records. simpl.
  destruct (output_writable env); simpl;
    by rewrite ?loop_bills, loop_console.
Qed.

Lemma in_row_lines {A} (f : nat -> A -> list event) (rows : list A) ev :
  In ev (concat (imap f rows)) <->
  exists j row, rows !! j = Some row /\ In ev (f j row).
Proof.
  rewrite in_concat. split.
  - intros (evs & Hevs & Hin).
    apply list_elem_of_In, list_elem_of_lookup in Hevs as [j Hj].
    apply list_lookup_imap_Some in Hj as (row & Hrow & ->). eauto.
  - intros (j & row & Hrow & Hin). exists (f j row). split; [|done].
    apply list_elem_of_In, list_elem_of_lookup. exists j.
    apply list_lookup_imap_Some. eauto.
Qed.

Lemma passes_check_false f :
  passes_check f = false <-> f_name f = "" \/ f_due_date f = "".
Proof.
  unfold passes_check. rewrite andb_false_iff.
  by rewrite <- !truthy_false.
Qed.

Lemma passes_check_true f :
  passes_check f = true <-> f_name f <> "" /\ f_due_date f <> "".
Proof.
  unfold passes_check. rewrite andb_true_iff.
  by rewrite <- !truthy_nonempty.
Qed.

(** The console of a run without its last line, which is the count or
    the fatal-error line. *)
Lemma in_printed_rows env fns recs ev :
  (forall c, ev <> Converted c) -> (forall e, ev <> Fatal e) ->
  In ev (printed (convert_csv_to_json env (Records (fns :: recs)))) <->
  exists j row, rows_of fns recs !! j = Some row
                /\ In ev (row_events (headers_of fns) j row).
Proof.
  intros Hc Hf. rewrite convert_printed, <- in_row_lines, in_app_iff.
  split; [|by left].
  intros [H|[H|[]]]; [done|]. exfalso.
  destruct (output_writable env); subst; [by eapply Hc|by eapply Hf].
Qed.

(** X4. Each console line about a row names the row by its position
    among the data rows, counted from 1, and tells what happened to it:
    an error line with [e] for row [n] is printed exactly when the [n]-th
    row raises [e]; a skip line exactly when its six cells were read and
    its name or its raw due date is empty; a date warning with [raw]
    exactly when its six cells were read, its name is not empty, and its
    raw due date is [raw], not empty, and does not parse.  No error line,
    skip line or date warning carries the row number 0. *)
Theorem X4_console_lines env fns recs n :
  (forall e,
      In (RowError (S n) e) (printed (convert_csv_to_json env (Records (fns :: recs))))
      <-> exists row, rows_of fns recs !! n = Some row
                      /\ row_exception (headers_of fns) row = Some e)
  /\ (In (SkipRequired (S n)) (printed (convert_csv_to_json env (Records (fns :: recs))))
      <-> exists row f, rows_of fns recs !! n = Some row
                        /\ extract (headers_of fns) row = Ok f
                        /\ (f_name f = "" \/ f_due_date f = ""))
  /\ (forall raw,
      In (WarnDate (S n) raw) (printed (convert_csv_to_json env (Records (fns :: recs))))
      <-> exists row f, rows_of fns recs !! n = Some row
                        /\ extract (headers_of fns) row = Ok f
                        /\ f_name f <> "" /\ f_due_date f = raw /\ raw <> ""
                        /\ exists e, Datetime.strptime raw (date_format raw) = Raise e)
  /\ (forall e,
      ~ In (RowError 0 e) (printed (convert_csv_to_json env (Records (fns :: recs)))))
  /\ ~ In (SkipRequired 0) (printed (convert_csv_to_json env (Records (fns :: recs))))
  /\ (forall raw,
      ~ In (WarnDate 0 raw) (printed (convert_csv_to_json env (Records (fns :: recs))))).
Proof.
  repeat split.
  - rewrite in_printed_rows by done.
    intros (j & row & Hrow & Hin). apply row_events_error in Hin as [Hn He].
    assert (j = n) as -> by lia. eauto.
  - intros (row & Hrow & He). apply in_printed_rows; [done..|].
    exists n, row. split; [done|]. apply row_events_error. split; [lia|done].
  - rewrite in_printed_rows by done.
    intros (j & row & Hrow & Hin). apply row_events_skip in Hin as [Hn (f & Hf & Hc)].
    assert (j = n) as -> by lia. apply passes_check_false in Hc. eauto.
  - intros (row & f & Hrow & Hf & Hc). apply in_printed_rows; [done..|].
    exists n, row. split; [done|]. apply row_events_skip. split; [lia|].
    exists f. split; [done|]. by apply passes_check_false.
  - rewrite in_printed_rows by done.
    intros (j & row & Hrow & Hin).
    apply row_events_warn in Hin as [Hn (f & Hf & Hc & Hd & He)].
    assert (j = n) as -> by lia. apply passes_check_true in Hc as [Hc1 Hc2].
    exists row, f. repeat split; try done. by rewrite <- Hd.
  - intros (row & f & Hrow & Hf & Hnm & Hd & Hraw & He).
    apply in_printed_rows; [done..|].
    exists n, row. split; [done|]. apply row_events_warn. split; [lia|].
    exists f. repeat split; try done.
    apply passes_check_true. split; [done|]. by rewrite Hd.
  - intros e. rewrite in_printed_rows by done.
    intros (j & row & _ & Hin). apply row_events_error in Hin as [Hn _]. lia.
  - rewrite in_printed_rows by done.
    intros (j & row & _ & Hin). apply row_events_skip in Hin as [Hn _]. lia.
  - intros raw. rewrite in_printed_rows by done.
    intros (j & row & _ & Hin). apply row_events_warn in Hin as [Hn _]. lia.
Qed.

(** X5. A row raises nothing but [AttributeError] and [ValueError]: no
    error line of a run carries another exception, [KeyError] included. *)
Theorem X5_row_error_kinds env file n e :
  In (RowError n e) (printed (convert_csv_to_json env file)) ->
  e = AttributeError \/ e = ValueError.
Proof.
  destruct file as [| |[|fns recs]]; simpl; try (by intros [|[]]).
  change (In (RowError n e) (printed (convert_csv_to_json env (Records (fns :: recs))))
          -> e = AttributeError \/ e = ValueError).
  rewrite convert_printed, in_app_iff. intros [Hin|[Hin|[]]].
  - apply in_row_lines in Hin as (j & row & Hrow & Hin).
    apply row_events_error in Hin as [_ He].
    apply list_elem_of_lookup_2, elem_of_rows_of in Hrow as (r & _ & _ & ->).
    by apply row_exception_kinds in He.
  - by destruct (output_writable env).
Qed.

End RowErrors.

Lemma X3_short_record_witness :
  Converter.process_row Samples.env (Converter.headers_of Samples.full_header)
    Samples.start 4 (Csv.dict_row Samples.full_header ["Net"; "Apps"; "2024-01-05"; "9"; "Yearly"]) =
  Converter.mkstate [] ∅ [RowError 5 AttributeError].
Proof.
  apply (X3_short_record Samples.env Samples.full_header
           ["Net"; "Apps"; "2024-01-05"; "9"; "Yearly"] Samples.start 4
           "Notes" "" 5).
  - vm_compute. tauto.
  - vm_compute. reflexivity.
  - vm_compute. lia.
Defined.

Lemma X4_console_lines_witness :
  In (RowError 3 ValueError)
     (Converter.printed (Converter.convert_csv_to_json Samples.env Samples.file))
  /\ In (SkipRequired 1)
       (Converter.printed (Converter.convert_csv_to_json Samples.env Samples.file))
  /\ In (WarnDate 4 "not-a-date")
       (Converter.printed (Converter.convert_csv_to_json Samples.env Samples.file)).
Proof.
  split; [|split].
  - apply (proj1 (X4_console_lines Samples.env Samples.full_header
                    [Samples.no_name; Samples.rent; Samples.bad_amount;
                     Samples.odd_date; Samples.short] 2) ValueError).
    exists (Csv.dict_row Samples.full_header Samples.bad_amount).
    split; vm_compute; reflexivity.
  - apply (proj1 (proj2 (X4_console_lines Samples.env Samples.full_header
                    [Samples.no_name; Samples.rent; Samples.bad_amount;
                     Samples.odd_date; Samples.short] 0))).
    eexists (Csv.dict_row Samples.full_header Samples.no_name), _.
    split; [vm_compute; reflexivity|].
    split; [vm_compute; reflexivity|]. left. reflexivity.
  - apply (proj1 (proj2 (proj2 (X4_console_lines Samples.env Samples.full_header
                    [Samples.no_name; Samples.rent; Samples.bad_amount;
                     Samples.odd_date; Samples.short] 3))) "not-a-date").
    eexists (Csv.dict_row Samples.full_header Samples.odd_date), _.
    split; [vm_compute; reflexivity|].
    split; [vm_compute; reflexivity|].
    split; [discriminate|]. split; [reflexivity|]. split; [discriminate|].
    eexists. vm_compute. reflexivity.
Defined.

Lemma X5_row_error_kinds_witness :
  AttributeError = AttributeError \/ AttributeError = ValueError.
Proof.
  apply (X5_row_error_kinds Samples.env Samples.file 5 AttributeError).
  vm_compute. tauto.
Defined.

(** ** Whole runs *)

Section WholeRuns.

Import Converter Spec Columns Console.

Lemma extract_fields h row f :
  extract h row = Ok f ->
  get_val h row "Name" "" = Ok (f_name f)
  /\ get_val h row "Category" "Other" = Ok (f_category f)
  /\ get_val h row "Due Date" "" = Ok (f_due_date f)
  /\ get_val h row "Amount" "0" = Ok (f_amount f)
  /\ get_val h row "Recurrence" "Monthly" = Ok (f_recurrence f)
  /\ get_val h row "Notes" "" = Ok (f_notes f).
Proof.
  unfold extract, rbind.
  repeat (case_match; try done). by intros [= <-].
Qed.

Lemma get_val_absent fns (r : list string) key default :
  (forall h, In h fns -> norm h <> PyStr.lower key) ->
  get_val (headers_of fns) (Csv.dict_row fns r) key default = Ok default.
Proof. intros H. unfold get_val. by rewrite headers_of_absent. Qed.

Lemma omap_all_None {A B} (f : A -> option B) (l : list A) :
  (forall x, x ∈ l -> f x = None) -> omap f l = [].
Proof.
  induction l as [|x l IH]; intros H; [done|].
  change (omap f (x :: l)) with
    (match f x with Some y => y :: omap f l | None => omap f l end).
  rewrite (H x) by left. apply IH. intros y Hy. apply H. by right.
Qed.

Lemma sorted_empty it : enumerates it -> sorted (it ∅) = [].
Proof.
  intros Hit. rewrite (sorted_enumeration _ _ Hit), elements_empty. done.
Qed.

(** X6. A file that has no Name column, or no Due Date column, converts
    to an empty document: every row is left out, so the run succeeds with
    no bill and no category and reports that it converted 0 bills. *)
Theorem X6_missing_required_column env (fns : Csv.record) recs :
  output_writable env = true -> enumerates (set_iteration env) ->
  (forall h, In h fns -> norm h <> "name") \/
  (forall h, In h fns -> norm h <> "due date") ->
  returned (convert_csv_to_json env (Records (fns :: recs))) = true
  /\ written (convert_csv_to_json env (Records (fns :: recs))) =
       Some (Payload.mk (now_isoformat env ++ "Z")%string "1.0" [] [])
  /\ last (printed (convert_csv_to_json env (Records (fns :: recs)))) =
       Some (Converted 0).
Proof.
  intros Hw Hit Habs.
  assert (Hrows : forall row, row ∈ rows_of fns recs ->
            row_record env (headers_of fns) row = None
            /\ row_category (headers_of fns) row = None).
  { intros row (r & _ & _ & ->)%elem_of_rows_of.
    apply required_missing.
    destruct Habs as [H|H]; [left|right]; by apply get_val_absent. }
  assert (Hb : omap (row_record env (headers_of fns)) (rows_of fns recs) = []).
  { apply omap_all_None. intros row Hrow. by apply Hrows. }
  assert (Hc : omap (row_category (headers_of fns)) (rows_of fns recs) = []).
  { apply omap_all_None. intros row Hrow. by apply Hrows. }
  rewrite (convert_records env fns recs Hw), Hb, Hc. simpl.
  rewrite (sorted_empty _ Hit). split; [done|]. split; [done|].
  by rewrite last_snoc.
Qed.

(** X7. The defaults of absent columns reach every record: without a
    Category column every bill has the category "Other", without an
    Amount column the amount +0.0, without a Recurrence column the
    recurrence "Monthly", and without a Notes column empty notes. *)
Theorem X7_absent_column_defaults env fns recs p b :
  written (convert_csv_to_json env (Records (fns :: recs))) = Some p ->
  In b (Payload.bills p) ->
  ((forall h, In h fns -> norm h <> "category") -> Bill.category b = "Other")
  /\ ((forall h, In h fns -> norm h <> "amount") ->
      Bill.amountDue b = S754_zero false)
  /\ ((forall h, In h fns -> norm h <> "recurrence") ->
      Bill.recurrence b = "Monthly")
  /\ ((forall h, In h fns -> norm h <> "notes") -> Bill.notes b = "").
Proof.
  intros Hp Hb. destruct (convert_written _ _ _ Hp) as (fns' & recs' & [= <- <-] & Hw).
  rewrite (convert_records env fns recs Hw) in Hp. injection Hp as <-. simpl in Hb.
  apply list_elem_of_In, list_elem_of_omap in Hb as (row & Hrow & Hrec).
  apply elem_of_rows_of in Hrow as (r & _ & _ & ->).
  apply row_record_inv in Hrec as (f & x & Hf & _ & _ & Hx & ->). simpl.
  apply extract_fields in Hf as (_ & Hcat & _ & Ham & Hrc & Hno).
  repeat split; intros Habs.
  - rewrite get_val_absent in Hcat by done. congruence.
  - rewrite get_val_absent in Ham by done. injection Ham as Ham.
    rewrite <- Ham in Hx. vm_compute in Hx. congruence.
  - rewrite get_val_absent in Hrc by done. congruence.
  - rewrite get_val_absent in Hno by done. congruence.
Qed.

Lemma row_accounted env h i row :
  (length (option_list (row_record env h row))
   + length (List.filter drops_row (row_events h i row)) = 1)%nat.
Proof.
  unfold row_record, row_events.
  destruct (extract h row) as [f|e]; [|done].
  destruct (passes_check f); [|done].
  destruct (Datetime.strptime _ _), (PyFloat.float _); done.
Qed.

Lemma rows_accounted env h (rows : list (gmap string (option string))) :
  forall g : nat -> nat,
  (length (omap (row_record env h) rows)
   + length (List.filter drops_row
               (concat (imap (fun j row => row_events h (g j) row) rows)))
   = length rows)%nat.
Proof.
  induction rows as [|row rows IH]; intros g; [done|].
  rewrite imap_cons. simpl concat.
  rewrite List.filter_app, length_app.
  change (omap ?f (row :: rows)) with
    (match f row with Some y => y :: omap f rows | None => omap f rows end).
  pose proof (row_accounted env h (g 0%nat) row) as Hrow.
  pose proof (IH (fun j => g (S j))) as Hrows.
  unfold compose.
  destruct (row_record env h row); simpl in *; lia.
Qed.

(** X9. Every data row is accounted for: the number of bills written
    plus the number of skip lines and error lines printed is the number
    of data rows of the file. *)
Theorem X9_rows_accounted env fns recs p :
  written (convert_csv_to_json env (Records (fns :: recs))) = Some p ->
  (length (Payload.bills p)
   + length (List.filter drops_row
               (printed (convert_csv_to_json env (Records (fns :: recs)))))
   = length (Csv.data_records (fns :: recs)))%nat.
Proof.
  intros Hp. destruct (convert_written _ _ _ Hp) as (fns' & recs' & [= <- <-] & Hw).
  rewrite (convert_records env fns recs Hw) in *. injection Hp as <-. simpl.
  rewrite List.filter_app, length_app. simpl.
  pose proof (rows_accounted env (headers_of fns) (rows_of fns recs) (fun j => j)) as H.
  unfold rows_of in *. rewrite length_fmap in H. unfold Csv.data_records. simpl. lia.
Qed.

(** X10. The category of every bill written is listed: a bill with a
    non-empty category has it among customCategories. *)
Theorem X10_bill_categories_listed env file p b :
  enumerates (set_iteration env) ->
  written (convert_csv_to_json env file) = Some p ->
  In b (Payload.bills p) -> Bill.category b <> "" ->
  In (Bill.category b) (Payload.customCategories p).
Proof.
  intros Hit Hp Hb Hc. destruct (convert_written _ _ _ Hp) as (fns & recs & -> & Hw).
  rewrite (convert_records env fns recs Hw) in Hp. injection Hp as <-. simpl in *.
  apply list_elem_of_In, list_elem_of_omap in Hb as (row & Hrow & Hrec).
  apply row_record_inv in Hrec as (f & x & Hf & Hn & Hd & _ & ->). simpl in *.
  apply list_elem_of_In, (sorted_elem_of _ _ _ Hit), elem_of_list_to_set,
    list_elem_of_omap.
  exists row. split; [done|]. apply row_category_Some. split; [done|]. by exists f.
Qed.

(** X11. Rows do not influence one another: the bills of a file are the
    bills of its first records followed by the bills of the rest, and its
    categories are those of either part. *)
Theorem X11_concatenation env fns recs1 recs2 p1 p2 p :
  enumerates (set_iteration env) ->
  written (convert_csv_to_json env (Records (fns :: recs1))) = Some p1 ->
  written (convert_csv_to_json env (Records (fns :: recs2))) = Some p2 ->
  written (convert_csv_to_json env (Records (fns :: recs1 ++ recs2))) = Some p ->
  Payload.bills p = Payload.bills p1 ++ Payload.bills p2
  /\ forall c, In c (Payload.customCategories p) <->
       In c (Payload.customCategories p1) \/ In c (Payload.customCategories p2).
Proof.
  intros Hit Hp1 Hp2 Hp.
  destruct (convert_written _ _ _ Hp) as (? & ? & _ & Hw).
  rewrite (convert_records env fns recs1 Hw) in Hp1.
  rewrite (convert_records env fns recs2 Hw) in Hp2.
  rewrite (convert_records env fns (recs1 ++ recs2) Hw) in Hp.
  injection Hp1 as <-. injection Hp2 as <-. injection Hp as <-. simpl.
  rewrite rows_of_app, !omap_app. split; [done|].
  intros c. rewrite <- !list_elem_of_In, !(sorted_elem_of _ _ _ Hit).
  rewrite list_to_set_app_L, elem_of_union. done.
Qed.

(** X12. The order of the data records decides the order of the bills and
    nothing else: for a rearranged file customCategories is the same list
    and the bills are the same up to their order. *)
Theorem X12_row_order env fns recs recs' p p' :
  enumerates (set_iteration env) -> recs ≡ₚ recs' ->
  written (convert_csv_to_json env (Records (fns :: recs))) = Some p ->
  written (convert_csv_to_json env (Records (fns :: recs'))) = Some p' ->
  Payload.customCategories p = Payload.customCategories p'
  /\ Payload.bills p ≡ₚ Payload.bills p'.
Proof.
  intros Hit Hperm Hp Hp'.
  destruct (convert_written _ _ _ Hp) as (? & ? & _ & Hw).
  rewrite (convert_records env fns recs Hw) in Hp.
  rewrite (convert_records env fns recs' Hw) in Hp'.
  injection Hp as <-. injection Hp' as <-. simpl.
  assert (Hrows : rows_of fns recs ≡ₚ rows_of fns recs').
  { unfold rows_of. by rewrite Hperm. }
  split.
  - rewrite !(sorted_enumeration _ _ Hit). by rewrite Hrows.
  - by rewrite Hrows.
Qed.

End WholeRuns.

Lemma X6_missing_required_column_witness :
  Converter.written (Converter.convert_csv_to_json Samples.env
     (Records (["Title"; "Category"; "Due Date"; "Amount"] :: [Samples.rent]))) =
  Some (Payload.mk "2024-05-01T09:30:00Z" "1.0" [] []).
Proof.
  apply (X6_missing_required_column Samples.env
           ["Title"; "Category"; "Due Date"; "Amount"] [Samples.rent]
           eq_refl (fun s => Permutation_refl _)).
  left. intros h [<-|[<-|[<-|[<-|[]]]]]; vm_compute; discriminate.
Defined.

Lemma X7_absent_column_defaults_witness :
  Bill.recurrence (Bill.mk "Rent" "Housing" "2024-03-15" (S754_zero false) "Monthly" "")
  = "Monthly".
Proof.
  apply (X7_absent_column_defaults Samples.env ["Name"; "Category"; "Due Date"]
           [["Rent"; "Housing"; "03/15/24"]]
           (Payload.mk "2024-05-01T09:30:00Z" "1.0"
              [Bill.mk "Rent" "Housing" "2024-03-15" (S754_zero false) "Monthly" ""]
              ["Housing"])
           (Bill.mk "Rent" "Housing" "2024-03-15" (S754_zero false) "Monthly" "")
           ltac:(vm_compute; reflexivity) ltac:(left; reflexivity)).
  intros h [<-|[<-|[<-|[]]]]; vm_compute; discriminate.
Defined.

Lemma X9_rows_accounted_witness :
  (length [Samples.rent_bill; Samples.water_bill]
   + length (List.filter Console.drops_row
               (Converter.printed (Converter.convert_csv_to_json Samples.env Samples.file)))
   = 5)%nat.
Proof.
  apply (X9_rows_accounted Samples.env Samples.full_header
           [Samples.no_name; Samples.rent; Samples.bad_amount; Samples.odd_date;
            Samples.short]
           (Payload.mk "2024-05-01T09:30:00Z" "1.0"
              [Samples.rent_bill; Samples.water_bill] ["Housing"; "Utilities"])).
  vm_compute. reflexivity.
Defined.

Lemma X10_bill_categories_listed_witness :
  In (Bill.category Samples.rent_bill) ["Housing"; "Utilities"].
Proof.
  apply (X10_bill_categories_listed Samples.env Samples.file
           (Payload.mk "2024-05-01T09:30:00Z" "1.0"
              [Samples.rent_bill; Samples.water_bill] ["Housing"; "Utilities"])
           Samples.rent_bill (fun s => Permutation_refl _)
           ltac:(vm_compute; reflexivity) ltac:(left; reflexivity)
           ltac:(discriminate)).
Defined.

Lemma X11_concatenation_witness :
  [Samples.rent_bill; Samples.water_bill] = [Samples.rent_bill] ++ [Samples.water_bill].
Proof.
  apply (X11_concatenation Samples.env Samples.full_header
           [Samples.no_name; Samples.rent; Samples.bad_amount]
           [Samples.odd_date; Samples.short]
           (Payload.mk "2024-05-01T09:30:00Z" "1.0" [Samples.rent_bill]
                       ["Housing"; "Utilities"])
           (Payload.mk "2024-05-01T09:30:00Z" "1.0" [Samples.water_bill] [])
           (Payload.mk "2024-05-01T09:30:00Z" "1.0"
              [Samples.rent_bill; Samples.water_bill] ["Housing"; "Utilities"])
           (fun s => Permutation_refl _)
           ltac:(vm_compute; reflexivity) ltac:(vm_compute; reflexivity)
           ltac:(vm_compute; reflexivity)).
Defined.

Lemma X12_row_order_witness :
  ["Housing"; "Utilities"] = ["Housing"; "Utilities"]
  /\ [Samples.rent_bill; Samples.water_bill] ≡ₚ [Samples.water_bill; Samples.rent_bill].
Proof.
  apply (X12_row_order Samples.env Samples.full_header
           [Samples.rent; Samples.bad_amount; Samples.odd_date]
           [Samples.odd_date; Samples.bad_amount; Samples.rent]
           (Payload.mk "2024-05-01T09:30:00Z" "1.0"
              [Samples.rent_bill; Samples.water_bill] ["Housing"; "Utilities"])
           (Payload.mk "2024-05-01T09:30:00Z" "1.0"
              [Samples.water_bill; Samples.rent_bill] ["Housing"; "Utilities"])
           (fun s => Permutation_refl _)).
  - apply (Permutation_trans (l' := [Samples.rent; Samples.odd_date; Samples.bad_amount])).
    + apply perm_skip, perm_swap.
    + apply (Permutation_trans (l' := [Samples.odd_date; Samples.rent; Samples.bad_amount])).
      * apply perm_swap.
      * apply perm_skip, perm_swap.
  - vm_compute. reflexivity.
  - vm_compute. reflexivity.
Defined.

(** ** Trimmed fields *)

Section Trimmed.

Import Converter Spec Trim.

Lemma lstrip_head s c t : PyStr.lstrip s = String c t -> PyStr.isspace c = false.
Proof.
  induction s as [|d s IH]; simpl; [done|].
  destruct (PyStr.isspace d) eqn:Hd; [done|]. by intros [= <- _].
Qed.

Lemma rstrip_head c t :
  PyStr.isspace c = false -> exists t', PyStr.rstrip (String c t) = String c t'.
Proof.
  intros Hc. simpl. destruct (PyStr.rstrip t); rewrite ?Hc; eauto.
Qed.

Lemma rstrip_idem s : PyStr.rstrip (PyStr.rstrip s) = PyStr.rstrip s.
Proof.
  induction s as [|c s IH]; simpl; [done|].
  destruct (PyStr.rstrip s) as [|d r] eqn:Hr.
  - destruct (PyStr.isspace c) eqn:Hc; simpl; [done|]. by rewrite Hc.
  - change (PyStr.rstrip (String c (String d r))) with
      (match PyStr.rstrip (String d r) with
       | EmptyString => if PyStr.isspace c then EmptyString else String c EmptyString
       | r' => String c r'
       end).
    by rewrite IH.
Qed.

Lemma strip_idem s : trimmed (PyStr.strip s).
Proof.
  unfold trimmed, PyStr.strip.
  destruct (PyStr.lstrip s) as [|c t] eqn:Hl; [done|].
  pose proof (lstrip_head _ _ _ Hl) as Hc.
  destruct (rstrip_head c t Hc) as [t' Ht]. rewrite Ht.
  simpl PyStr.lstrip. rewrite Hc, <- Ht. apply rstrip_idem.
Qed.

Lemma no_space_trimmed s : no_space s = true -> trimmed s.
Proof.
  intros Hs. unfold trimmed, PyStr.strip.
  assert (PyStr.lstrip s = s) as ->.
  { destruct s as [|c s]; [done|]. simpl in *.
    apply andb_true_iff in Hs as [Hc _]. by destruct (PyStr.isspace c). }
  induction s as [|c s IH]; [done|]. simpl in *.
  apply andb_true_iff in Hs as [Hc Hs]. rewrite (IH Hs).
  destruct s; [|done]. by destruct (PyStr.isspace c).
Qed.

Lemma no_space_app s1 s2 :
  no_space (s1 ++ s2)%string = no_space s1 && no_space s2.
Proof.
  induction s1 as [|c s1 IH]; simpl; [done|]. by rewrite IH, andb_assoc.
Qed.

Lemma digit_char_no_space n : PyStr.isspace (Datetime.digit_char n) = false.
Proof.
  unfold PyStr.isspace. rewrite digit_char_code.
  pose proof (Z.mod_pos_bound n 10 ltac:(lia)).
  apply not_true_iff_false.
  rewrite !orb_true_iff, !andb_true_iff, !N.leb_le, !N.eqb_eq. lia.
Qed.

Lemma no_space_drop_zeros s : no_space s = true -> no_space (Datetime.drop_zeros s) = true.
Proof.
  induction s as [|c s IH]; [done|]. intros Hs. simpl.
  destruct s as [|d s]; [done|].
  destruct (Ascii.eqb c "0"); [|done].
  apply IH. simpl in Hs. by apply andb_true_iff in Hs as [_ ?].
Qed.

Lemma strftime_no_space zf dt : no_space (Datetime.strftime_Y_m_d zf dt) = true.
Proof.
  unfold Datetime.strftime_Y_m_d. rewrite !no_space_app.
  assert (no_space (Datetime.fill4 (Datetime.year dt)) = true) as H4.
  { unfold Datetime.fill4, Datetime.fill2. simpl. by rewrite !digit_char_no_space. }
  assert (no_space (Datetime.strftime_Y zf (Datetime.year dt)) = true) as ->.
  { unfold Datetime.strftime_Y. destruct zf; [done|]. by apply no_space_drop_zeros. }
  unfold Datetime.fill2. simpl. by rewrite !digit_char_no_space.
Qed.

Lemma get_val_trimmed h row key default v :
  trimmed default -> get_val h row key default = Ok v -> trimmed v.
Proof.
  intros Hd. unfold get_val.
  repeat (case_match; try done); intros [= <-]; try done; apply strip_idem.
Qed.

Lemma date_policy_trimmed zf raw : trimmed raw -> trimmed (date_policy zf raw).
Proof.
  intros Hraw. unfold date_policy.
  destruct (Datetime.strptime _ _); [|done].
  apply no_space_trimmed, strftime_no_space.
Qed.

(** X13. The texts of every bill written are trimmed: name, category,
    dueDate, recurrence and notes have no white space at either end, and
    the name is not empty. *)
Theorem X13_bill_texts_trimmed env file p b :
  written (convert_csv_to_json env file) = Some p ->
  In b (Payload.bills p) ->
  Bill.name b <> ""
  /\ trimmed (Bill.name b) /\ trimmed (Bill.category b)
  /\ trimmed (Bill.dueDate b) /\ trimmed (Bill.recurrence b)
  /\ trimmed (Bill.notes b).
Proof.
  intros Hp Hb. destruct (convert_written _ _ _ Hp) as (fns & recs & -> & Hw).
  rewrite (convert_records env fns recs Hw) in Hp. injection Hp as <-. simpl in Hb.
  apply list_elem_of_In, list_elem_of_omap in Hb as (row & _ & Hrec).
  apply row_record_inv in Hrec as (f & x & Hf & Hn & _ & _ & ->). simpl.
  apply extract_fields in Hf as (H1 & H2 & H3 & H4 & H5 & H6).
  split; [done|].
  split; [by eapply get_val_trimmed; [|exact H1]|].
  split; [by eapply get_val_trimmed; [|exact H2]|].
  split; [apply date_policy_trimmed; by eapply get_val_trimmed; [|exact H3]|].
  split; [by eapply get_val_trimmed; [|exact H5]|].
  by eapply get_val_trimmed; [|exact H6].
Qed.

End Trimmed.

Lemma X13_bill_texts_trimmed_witness :
  Bill.name Samples.water_bill <> ""
  /\ Trim.trimmed (Bill.name Samples.water_bill)
  /\ Trim.trimmed (Bill.category Samples.water_bill)
  /\ Trim.trimmed (Bill.dueDate Samples.water_bill)
  /\ Trim.trimmed (Bill.recurrence Samples.water_bill)
  /\ Trim.trimmed (Bill.notes Samples.water_bill).
Proof.
  apply (X13_bill_texts_trimmed Samples.env Samples.file
           (Payload.mk "2024-05-01T09:30:00Z" "1.0"
              [Samples.rent_bill; Samples.water_bill] ["Housing"; "Utilities"])).
  - vm_compute. reflexivity.
  - right. left. reflexivity.
Defined.

(** ** Dates written and read back *)

Section DateRoundTrip.

Import Converter Spec Datetime.
Local Open Scope Z_scope.

Lemma append_cons c s t : (String c s ++ t)%string = String c (s ++ t)%string.
Proof. reflexivity. Qed.

Lemma append_nil t : ("" ++ t)%string = t.
Proof. reflexivity. Qed.

Lemma append_nil_r s : (s ++ "")%string = s.
Proof. induction s as [|c s IH]; [done|]. by rewrite append_cons, IH. Qed.

Lemma consumed_prefix pre rest : consumed (pre ++ rest)%string rest = pre.
Proof.
  unfold consumed.
  assert (String.length (pre ++ rest)%string - String.length rest
          = String.length pre)%nat as ->.
  { assert (String.length (pre ++ rest)%string
            = String.length pre + String.length rest)%nat as ->; [|lia].
    induction pre as [|c pre IH]; [done|].
    rewrite append_cons. simpl. lia. }
  induction pre as [|c pre IH].
  - rewrite append_nil. by destruct rest.
  - rewrite append_cons. simpl. by rewrite IH.
Qed.

Lemma re_match_year {A} a b c d rest caps (k : string -> captures -> option A) :
  is_digit a = true -> is_digit b = true -> is_digit c = true -> is_digit d = true ->
  re_match (Group "Y" (Seq Digit (Seq Digit (Seq Digit Digit))))
           (String a (String b (String c (String d rest)))) caps k =
  k rest (("Y"%char, String a (String b (String c (String d "")))) :: caps).
Proof.
  intros Ha Hb Hc Hd. cbn [re_match]. rewrite Ha, Hb, Hc, Hd.
  pose proof (consumed_prefix (String a (String b (String c (String d "")))) rest) as H.
  rewrite !append_cons, append_nil in H. by rewrite H.
Qed.

Lemma consumed_2 a b rest : consumed (String a (String b rest)) rest = String a (String b "").
Proof.
  pose proof (consumed_prefix (String a (String b "")) rest) as H.
  by rewrite !append_cons, append_nil in H.
Qed.

Lemma re_match_month {A} m rest caps (k : string -> captures -> option A) a :
  1 <= m <= 12 ->
  k rest (("m"%char, fill2 m) :: caps) = Some a ->
  forall r, directive "m" = Some r ->
  re_match r (fill2 m ++ rest)%string caps k = Some a.
Proof.
  intros Hm Hk r [= <-].
  assert (m = 1 \/ m = 2 \/ m = 3 \/ m = 4 \/ m = 5 \/ m = 6 \/ m = 7 \/ m = 8
          \/ m = 9 \/ m = 10 \/ m = 11 \/ m = 12) as Hcase by lia.
  repeat (destruct Hcase as [->|Hcase]); try subst m;
    match goal with
    | |- context [fill2 ?n] =>
        let v := eval vm_compute in (fill2 n) in change (fill2 n) with v in *
    end;
    rewrite !append_cons, append_nil; cbn -[consumed in_range is_digit];
    repeat match goal with
      | |- context [in_range ?a ?b ?c] =>
          let v := eval vm_compute in (in_range a b c) in
          change (in_range a b c) with v
      | |- context [is_digit ?c] =>
          let v := eval vm_compute in (is_digit c) in
          change (is_digit c) with v
      end;
    cbn -[consumed]; rewrite ?consumed_2, Hk; reflexivity.
Qed.

Lemma re_match_day {A} d rest caps (k : string -> captures -> option A) a :
  1 <= d <= 31 ->
  k rest (("d"%char, fill2 d) :: caps) = Some a ->
  forall r, directive "d" = Some r ->
  re_match r (fill2 d ++ rest)%string caps k = Some a.
Proof.
  intros Hd Hk r [= <-].
  assert (d = 1 \/ d = 2 \/ d = 3 \/ d = 4 \/ d = 5 \/ d = 6 \/ d = 7 \/ d = 8
          \/ d = 9 \/ d = 10 \/ d = 11 \/ d = 12 \/ d = 13 \/ d = 14 \/ d = 15
          \/ d = 16 \/ d = 17 \/ d = 18 \/ d = 19 \/ d = 20 \/ d = 21 \/ d = 22
          \/ d = 23 \/ d = 24 \/ d = 25 \/ d = 26 \/ d = 27 \/ d = 28 \/ d = 29
          \/ d = 30 \/ d = 31) as Hcase by lia.
  repeat (destruct Hcase as [->|Hcase]); try subst d;
    match goal with
    | |- context [fill2 ?n] =>
        let v := eval vm_compute in (fill2 n) in change (fill2 n) with v in *
    end;
    rewrite !append_cons, append_nil; cbn -[consumed in_range is_digit];
    repeat match goal with
      | |- context [in_range ?a ?b ?c] =>
          let v := eval vm_compute in (in_range a b c) in
          change (in_range a b c) with v
      | |- context [is_digit ?c] =>
          let v := eval vm_compute in (is_digit c) in
          change (is_digit c) with v
      end;
    cbn -[consumed]; rewrite ?consumed_2, Hk; reflexivity.
Qed.

Lemma strip_digits s : Trim.no_space s = true -> PyStr.strip s = s.
Proof. apply no_space_trimmed. Qed.

Lemma int_fill2 n : 0 <= n <= 99 -> int (fill2 n) = Some n.
Proof.
  intros Hn. unfold int, fill2.
  rewrite strip_digits by (simpl; by rewrite !digit_char_no_space).
  cbn [int_digits]. rewrite !digit_char_is_digit, !digit_char_code.
  f_equal. pose proof (Z.mod_pos_bound n 10). pose proof (Z.mod_pos_bound (n / 10) 10).
  rewrite !Z2N.id by lia. clear -Hn. Z.div_mod_to_equations. lia.
Qed.

Lemma int_fill4 n : 0 <= n <= 9999 -> int (fill4 n) = Some n.
Proof.
  intros Hn. unfold int, fill4, fill2.
  rewrite strip_digits by (simpl; by rewrite !digit_char_no_space).
  cbn [int_digits]. rewrite !digit_char_is_digit, !digit_char_code.
  f_equal.
  pose proof (Z.mod_pos_bound n 10). pose proof (Z.mod_pos_bound (n / 10) 10).
  pose proof (Z.mod_pos_bound (n / 100) 10). pose proof (Z.mod_pos_bound (n / 1000) 10).
  rewrite !Z2N.id by lia. clear -Hn. Z.div_mod_to_equations. lia.
Qed.

Lemma check_date_fields_bounds y m d :
  check_date_fields y m d = true -> 1 <= y <= 9999 /\ 1 <= m <= 12 /\ 1 <= d <= 31.
Proof.
  unfold check_date_fields, MINYEAR, MAXYEAR, days_in_month.
  rewrite !andb_true_iff, !Z.leb_le. intros [[[[[? ?] ?] ?] ?] Hd].
  repeat case_match; lia.
Qed.

Lemma re_match_seq {A} r1 r2 s caps (k : string -> captures -> option A) :
  re_match (Seq r1 r2) s caps k =
  re_match r1 s caps (fun s' caps' => re_match r2 s' caps' k).
Proof. reflexivity. Qed.

Lemma re_match_chr {A} c r s caps (k : string -> captures -> option A) :
  re_match (Seq (Chr c) r) (String c s) caps k = re_match r s caps k.
Proof. cbn [re_match]. by rewrite Ascii.eqb_refl. Qed.

Lemma re_match_fill4 {A} y rest caps (k : string -> captures -> option A) :
  re_match (Group "Y" (Seq Digit (Seq Digit (Seq Digit Digit))))
           (fill4 y ++ rest)%string caps k =
  k rest (("Y"%char, fill4 y) :: caps).
Proof.
  unfold fill4, fill2. rewrite !append_cons, append_nil.
  apply re_match_year; apply digit_char_is_digit.
Qed.

(** The text that [%Y-%m-%d] writes for a valid date matches the pattern
    of [%Y-%m-%d], each group taking the digits written for it. *)
Lemma regex_match_rendered y m d r :
  1 <= m <= 12 -> 1 <= d <= 31 ->
  pattern "%Y-%m-%d" = Some r ->
  regex_match r (strftime_Y_m_d true (mkdate y m d)) =
    Some ("", [("d"%char, fill2 d); ("m"%char, fill2 m); ("Y"%char, fill4 y)]).
Proof.
  intros Hm Hd Hr. vm_compute in Hr. injection Hr as <-.
  unfold regex_match, strftime_Y_m_d, strftime_Y. cbn [year month day].
  rewrite re_match_seq, re_match_fill4.
  rewrite append_cons, append_nil, re_match_chr, re_match_seq.
  eapply re_match_month; [done| |reflexivity].
  rewrite append_cons, append_nil, re_match_chr, re_match_seq.
  rewrite <- (append_nil_r (fill2 d)) at 1.
  eapply re_match_day; [done| |reflexivity].
  reflexivity.
Qed.

Lemma strptime_strftime y m d :
  check_date_fields y m d = true ->
  strptime (strftime_Y_m_d true (mkdate y m d)) "%Y-%m-%d" = Ok (mkdate y m d).
Proof.
  intros Hv. destruct (check_date_fields_bounds _ _ _ Hv) as (Hy & Hm & Hd).
  unfold strptime.
  destruct (pattern "%Y-%m-%d") as [r|] eqn:Hr; [|by vm_compute in Hr].
  rewrite (regex_match_rendered y m d r Hm Hd Hr).
  cbn [String.eqb negb]. unfold group_int.
  cbn [group Ascii.eqb Bool.eqb].
  rewrite int_fill4, !int_fill2 by lia. cbn [rbind].
  assert ((0 <=? y) = true) as -> by (apply Z.leb_le; lia).
  by rewrite Hv.
Qed.

(** X14. A date written with [%Y-%m-%d] (the year with four digits) is
    read back by [%Y-%m-%d] as the same date. *)
Theorem X14_date_round_trip dt :
  check_date_fields (year dt) (month dt) (day dt) = true ->
  strptime (strftime_Y_m_d true dt) "%Y-%m-%d" = Ok dt.
Proof. destruct dt as [y m d]. apply strptime_strftime. Qed.

Lemma dash_not_digit n : Ascii.eqb "-" (digit_char n) = false.
Proof.
  apply Ascii.eqb_neq. intros H. apply (f_equal is_digit) in H.
  by rewrite digit_char_is_digit in H.
Qed.

Lemma date_format_rendered dt :
  date_format (strftime_Y_m_d true dt) = "%Y-%m-%d".
Proof.
  unfold date_format, strftime_Y_m_d, strftime_Y, fill4, fill2.
  rewrite !append_cons, !append_nil.
  cbn [PyStr.contains before_first]. rewrite !dash_not_digit.
  cbn [Ascii.eqb Bool.eqb orb String.length Nat.eqb]. done.
Qed.

Lemma strftime_filled zf dt :
  zf = true \/ 1000 <= year dt <= 9999 ->
  strftime_Y_m_d zf dt = strftime_Y_m_d true dt.
Proof.
  intros H. unfold strftime_Y_m_d.
  rewrite (strftime_Y_filled zf _ H). reflexivity.
Qed.

(** A normalized date is a fixed point of the policy. *)
Lemma date_policy_idem zf raw :
  (zf = true \/ forall dt, strptime raw (date_format raw) = Ok dt -> 1000 <= year dt) ->
  date_policy zf (date_policy zf raw) = date_policy zf raw.
Proof.
  intros Hz. unfold date_policy at 2 3.
  destruct (strptime raw (date_format raw)) as [dt|e] eqn:Hp.
  - pose proof (strptime_valid _ _ _ Hp) as Hv.
    destruct (check_date_fields_bounds _ _ _ Hv) as (Hy & _).
    assert (Hf : zf = true \/ 1000 <= year dt <= 9999).
    { destruct Hz as [->|Hz]; [by left|right]. specialize (Hz dt eq_refl). lia. }
    rewrite (strftime_filled zf dt Hf). unfold date_policy.
    rewrite date_format_rendered.
    destruct dt as [y m d]. rewrite (strptime_strftime y m d Hv).
    by rewrite (strftime_filled zf _ Hf).
  - unfold date_policy. by rewrite Hp.
Qed.

(** X15. Date normalization is idempotent: the due date that the
    converter writes for a row, given to it again as a raw due date,
    comes back unchanged (on a platform that prints years below 1000
    without leading zeros, for dates from the year 1000 on). *)
Theorem X15_format_date_idempotent env i i' raw st st' d :
  raw <> "" ->
  (zero_filled_year env = true \/
   forall dt, parse_due_date raw = Ok dt -> 1000 <= year dt) ->
  (format_date env i raw st).1 = Next d ->
  (format_date env i' d st').1 = Next d.
Proof.
  intros Hraw Hz. rewrite (format_date_nonempty env i raw st Hraw). simpl.
  intros [= <-].
  rewrite format_date_nonempty by (by apply date_policy_nonempty). simpl.
  f_equal. apply date_policy_idem.
  destruct Hz as [Hz|Hz]; [by left|right].
  intros dt Hdt. apply Hz. by rewrite parse_due_date_policy.
Qed.

End DateRoundTrip.

Lemma X14_date_round_trip_witness :
  Datetime.strptime "2024-02-29" "%Y-%m-%d" = Ok (Datetime.mkdate 2024 2 29).
Proof.
  apply (X14_date_round_trip (Datetime.mkdate 2024 2 29)). reflexivity.
Defined.

Lemma X15_format_date_idempotent_witness :
  (Converter.format_date Samples.env 7 "2024-03-15" Samples.start).1
  = Converter.Next "2024-03-15".
Proof.
  apply (X15_format_date_idempotent Samples.env 0 7 "03/15/24"
           Samples.start Samples.start "2024-03-15").
  - discriminate.
  - left. reflexivity.
  - vm_compute. reflexivity.
Defined.

(** ** Two-digit years *)

Section TwoDigitYears.

Import Converter Spec Datetime Regex.
Local Open Scope Z_scope.

(** A match succeeds through its continuation, with nothing added to the
    captures but groups of the expression. *)
Lemma re_match_names {A} r : forall s caps (k : string -> captures -> option A) a,
  re_match r s caps k = Some a ->
  exists s' new,
    k s' (new ++ caps) = Some a
    /\ Forall (fun nt : ascii * string => In nt.1 (group_names r)) new.
Proof.
  induction r as [|c|lo hi| |r1 IH1 r2 IH2|r1 IH1 r2 IH2|name r1 IH1];
    intros s caps k a; cbn [re_match group_names].
  - intros H. by exists s, [].
  - destruct s as [|d s]; [done|]. destruct (Ascii.eqb c d); [|done].
    intros H. by exists s, [].
  - destruct s as [|d s]; [done|]. destruct (in_range lo hi d); [|done].
    intros H. by exists s, [].
  - destruct s as [|d s]; [done|]. destruct (is_digit d); [|done].
    intros H. by exists s, [].
  - intros H. apply IH1 in H as (s1 & new1 & H & Hn1).
    apply IH2 in H as (s2 & new2 & H & Hn2).
    exists s2, (new2 ++ new1). rewrite <- app_assoc. split; [done|].
    apply Forall_app. split.
    + eapply Forall_impl; [exact Hn2|]. intros ? ?. apply in_or_app. by right.
    + eapply Forall_impl; [exact Hn1|]. intros ? ?. apply in_or_app. by left.
  - destruct (re_match r1 s caps k) as [a'|] eqn:H1.
    + intros [= <-]. apply IH1 in H1 as (s1 & new1 & H & Hn1).
      exists s1, new1. split; [done|].
      eapply Forall_impl; [exact Hn1|]. intros ? ?. apply in_or_app. by left.
    + intros H. apply IH2 in H as (s2 & new2 & H & Hn2).
      exists s2, new2. split; [done|].
      eapply Forall_impl; [exact Hn2|]. intros ? ?. apply in_or_app. by right.
  - intros H. apply IH1 in H as (s1 & new1 & H & Hn1).
    exists s1, ((name, consumed s s1) :: new1). split; [done|].
    constructor; [by left|].
    eapply Forall_impl; [exact Hn1|]. intros ? ?. by right.
Qed.

Lemma group_skip name new caps :
  Forall (fun nt : ascii * string => nt.1 <> name) new ->
  group name (new ++ caps) = group name caps.
Proof.
  induction 1 as [|[n t] new Hn _ IH]; [done|]. simpl in *.
  destruct (Ascii.eqb_spec n name); [done|]. exact IH.
Qed.

Lemma re_match_y_inv {A} s caps (k : string -> captures -> option A) a :
  re_match (Group "y" (Seq Digit Digit)) s caps k = Some a ->
  exists c1 c2 rest,
    s = String c1 (String c2 rest) /\ is_digit c1 = true /\ is_digit c2 = true
    /\ k rest (("y"%char, String c1 (String c2 "")) :: caps) = Some a.
Proof.
  cbn [re_match]. destruct s as [|c1 [|c2 rest]]; try done.
  - by destruct (is_digit c1).
  - destruct (is_digit c1) eqn:H1; [|done]. destruct (is_digit c2) eqn:H2; [|done].
    rewrite consumed_2. intros H. by exists c1, c2, rest.
Qed.

Lemma re_match_chr_inv {A} c r s caps (k : string -> captures -> option A) a :
  re_match (Seq (Chr c) r) s caps k = Some a ->
  exists s', s = String c s' /\ re_match r s' caps k = Some a.
Proof.
  cbn [re_match]. destruct s as [|d s]; [done|].
  destruct (Ascii.eqb_spec c d) as [->|]; [|done]. eauto.
Qed.

Lemma digit_not_space c : is_digit c = true -> PyStr.isspace c = false.
Proof.
  unfold is_digit, PyStr.isspace.
  rewrite andb_true_iff, !N.leb_le. intros [? ?].
  apply not_true_iff_false.
  rewrite !orb_true_iff, !andb_true_iff, !N.leb_le, !N.eqb_eq. lia.
Qed.

Lemma int_two_digits c1 c2 :
  is_digit c1 = true -> is_digit c2 = true ->
  exists n, int (String c1 (String c2 "")) = Some n /\ 0 <= n <= 99.
Proof.
  intros H1 H2. unfold int.
  rewrite strip_digits by (simpl; by rewrite !digit_not_space).
  cbn [int_digits]. rewrite H1, H2. eexists. split; [reflexivity|].
  unfold is_digit in *. rewrite andb_true_iff, !N.leb_le in H1, H2. lia.
Qed.

(** The groups of a match of [%y-%m-%d] or of [%m/%d/%y]: no group [Y],
    and two digits in the group [y]. *)
Lemma two_digit_year_groups fmt r data rest found :
  fmt = "%y-%m-%d" \/ fmt = "%m/%d/%y" ->
  pattern fmt = Some r ->
  regex_match r data = Some (rest, found) ->
  group "Y" found = None
  /\ exists c1 c2, is_digit c1 = true /\ is_digit c2 = true
                   /\ group "y" found = Some (String c1 (String c2 "")).
Proof.
  intros [->| ->] Hr; vm_compute in Hr; injection Hr as <-; unfold regex_match.
  - rewrite re_match_seq. intros H.
    apply re_match_y_inv in H as (c1 & c2 & s1 & -> & H1 & H2 & H).
    apply re_match_names in H as (s2 & new & [= <- <-] & Hn).
    assert (Hnew : forall name, name <> "m"%char -> name <> "d"%char ->
              Forall (fun nt : ascii * string => nt.1 <> name) new).
    { intros name Hm Hd. eapply Forall_impl; [exact Hn|].
      intros [n t]. cbn. intros [<-|[<-|[]]]; congruence. }
    rewrite !group_skip by (apply Hnew; discriminate). simpl.
    split; [done|]. by exists c1, c2.
  - rewrite re_match_seq. intros H.
    apply re_match_names in H as (s1 & new1 & H & Hn1).
    apply re_match_chr_inv in H as (s2 & -> & H). rewrite re_match_seq in H.
    apply re_match_names in H as (s3 & new2 & H & Hn2).
    apply re_match_chr_inv in H as (s4 & -> & H). rewrite re_match_seq in H.
    apply re_match_y_inv in H as (c1 & c2 & s5 & -> & H1 & H2 & H).
    cbn [re_match] in H. injection H as <- <-.
    split; [|by exists c1, c2].
    cbn [group Ascii.eqb Bool.eqb].
    rewrite !group_skip; [done| |].
    + eapply Forall_impl; [exact Hn1|]. intros [n t]. cbn.
      intros [<-|[]]. discriminate.
    + eapply Forall_impl; [exact Hn2|]. intros [n t]. cbn.
      intros [<-|[]]. discriminate.
Qed.

Lemma strptime_two_digit_year fmt data dt :
  fmt = "%y-%m-%d" \/ fmt = "%m/%d/%y" ->
  strptime data fmt = Ok dt -> 1969 <= year dt <= 2068.
Proof.
  intros Hfmt. unfold strptime.
  destruct (pattern fmt) as [r|] eqn:Hr; [|done].
  destruct (regex_match r data) as [[rest found]|] eqn:Hm; [|done].
  destruct (two_digit_year_groups fmt r data rest found Hfmt Hr Hm)
    as (HY & c1 & c2 & H1 & H2 & Hy).
  destruct (int_two_digits c1 c2 H1 H2) as (n & Hn & Hrange).
  destruct (negb _); [done|].
  unfold group_int at 1 2. rewrite HY, Hy, Hn. cbn [rbind].
  destruct (group_int "m" found 1) as [m|]; [|done].
  destruct (group_int "d" found 1) as [d|]; [|done]. cbn [rbind].
  change (0 <=? -1) with false. cbn iota.
  assert ((0 <=? n) = true) as -> by (apply Z.leb_le; lia).
  destruct (check_date_fields _ m d); [|done].
  intros [= <-]. simpl. destruct (Z.leb_spec n 68); lia.
Qed.

(** X16. Two-digit years fall in 1969..2068: when the first dash-separated
    segment, or without a dash the last slash-separated segment, of a raw
    due date has two characters and the date parses, its year is at least
    1969 and at most 2068. *)
Theorem X16_two_digit_year raw dt :
  date_format raw = "%y-%m-%d" \/ date_format raw = "%m/%d/%y" ->
  parse_due_date raw = Ok dt ->
  1969 <= year dt <= 2068.
Proof.
  intros Hfmt. rewrite parse_due_date_policy.
  by apply strptime_two_digit_year.
Qed.

End TwoDigitYears.

Lemma X16_two_digit_year_witness :
  (1969 <= Datetime.year (Datetime.mkdate 1999 12 31) <= 2068)%Z.
Proof.
  apply (X16_two_digit_year "12/31/99").
  - right. vm_compute. reflexivity.
  - vm_compute. reflexivity.
Defined.
